(** * energyreport: a shallow embedding of [energylevel.py]

    The script fetches body-battery, sleep and stress figures, merges them
    into one entry per date, summarises the window, asks a language model for
    advice and renders an HTML report.  This development embeds the lookup
    tables, the aggregation loop and [generate_html_report] with everything
    that function calls, and states the properties of the specification over
    that embedding.

    Conventions.
    - A Python [str] is a [string]: a sequence of bytes.  Every token the
      program searches for is ASCII, and an ASCII byte never occurs inside a
      multi-byte UTF-8 sequence, so replacing on bytes and replacing on code
      points agree.
    - A Python [int] is a [Z] (unbounded).
    - An exception is a value of [exn]; code that may raise returns an
      [outcome].
    - Calls that leave the program (the Garmin client, OpenAI, matplotlib,
      the file system, Jinja) are events of a program tree [Prog]; a handler
      over an arbitrary world state answers them or raises. *)

From Stdlib Require Import ZArith List String Ascii Lia.
From stdpp Require Import gmap strings list pretty.
Import ListNotations.
Open Scope string_scope.

(** ** Exceptions and results *)

Inductive exn : Type :=
| KeyError (key : string)
| IndexError
| ValueError
| TypeError
| ExternalError (msg : string).

Inductive outcome (A : Type) : Type :=
| Returns (a : A)
| Raises (e : exn).
Arguments Returns {A} a.
Arguments Raises {A} e.

Definition is_raise {A} (r : outcome A) : bool :=
  match r with Returns _ => false | Raises _ => true end.

#[global] Instance outcome_ret : MRet outcome := fun _ a => Returns a.
#[global] Instance outcome_bind : MBind outcome := fun _ _ f r =>
  match r with Returns a => f a | Raises e => Raises e end.
#[global] Instance outcome_fmap : FMap outcome := fun _ _ f r =>
  match r with Returns a => Returns (f a) | Raises e => Raises e end.

(** ** Python built-ins used by the script *)

Module Py.

(** The newline character. *)
Definition nl : string := String "010"%char EmptyString.

(** [s.replace(old, new)] for a non-empty [old]: scan from the left; at an
    occurrence of [old] emit [new] and skip the occurrence ([skip] counts
    the characters of it still to drop), otherwise copy one character. *)
Fixpoint replace_from (old new : string) (skip : nat) (s : string) : string :=
  match s with
  | EmptyString => EmptyString
  | String c s' =>
      match skip with
      | S n => replace_from old new n s'
      | O =>
          if String.prefix old s
          then new +:+ replace_from old new (String.length old - 1) s'
          else String c (replace_from old new 0 s')
      end
  end.

(** With an empty [old], Python puts [new] before every character and at
    the end. *)
Fixpoint intersperse_all (new s : string) : string :=
  match s with
  | EmptyString => new
  | String c s' => new +:+ String c (intersperse_all new s')
  end.

Definition str_replace (s old new : string) : string :=
  match old with
  | EmptyString => intersperse_all new s
  | String _ _ => replace_from old new 0 s
  end.

(** [sum(xs)]: a left fold starting at 0. *)
Definition sum (xs : list Z) : Z := fold_left Z.add xs 0%Z.

(** [xs.count(x)] *)
Definition count (xs : list nat) (x : nat) : nat :=
  length (filter (λ y, y = x) xs).

(** [max(xs)]: raises ValueError on an empty list. *)
Definition max (xs : list nat) : outcome nat :=
  match xs with
  | [] => Raises ValueError
  | x :: xs' => Returns (fold_left (fun m y => if Nat.ltb m y then y else m) xs' x)
  end.

(** [xs.index(x)]: position of the first element equal to [x]; raises
    ValueError when there is none. *)
Fixpoint index (xs : list nat) (x : nat) : outcome nat :=
  match xs with
  | [] => Raises ValueError
  | y :: xs' => if Nat.eqb y x then Returns 0 else S <$> index xs' x
  end.

(** [xs[i]] for a non-negative [i] *)
Definition getitem {A} (xs : list A) (i : nat) : outcome A :=
  match xs !! i with
  | Some a => Returns a
  | None => Raises IndexError
  end.

(** [xs[-1]] *)
Definition getlast {A} (xs : list A) : outcome A :=
  match last xs with
  | Some a => Returns a
  | None => Raises IndexError
  end.

(** [sep.join(xs)] *)
Fixpoint join (sep : string) (xs : list string) : string :=
  match xs with
  | [] => ""
  | [x] => x
  | x :: xs' => x +:+ sep +:+ join sep xs'
  end.

(** [str(n)] for an int *)
Definition str (n : Z) : string := pretty n.

End Py.

(** ** [datetime] and [calendar]

    [datetime.datetime.strptime(s, "%Y-%m-%d").weekday()] and
    [calendar.day_name], after CPython's [_strptime.py] and [_pydatetime.py].
    The format compiles to the regular expression
    [(?P<Y>\d\d\d\d)-(?P<m>1[0-2]|0[1-9]|[1-9])-(?P<d>3[0-1]|[1-2]\d|0[1-9]|[1-9]| [1-9])],
    matched at the start of the input with the alternatives tried in order;
    input left over after the match is an error.  The digits are the ASCII
    digits; the other decimal digits of Unicode, which [\d] accepts as
    well, are outside a model of strings as bytes. *)

Module Datetime.

Definition is_digit (c : ascii) : bool :=
  (48 <=? nat_of_ascii c)%nat && (nat_of_ascii c <=? 57)%nat.

Definition digit_val (c : ascii) : Z := Z.of_nat (nat_of_ascii c - 48).

Definition in_range (lo hi : ascii) (c : ascii) : bool :=
  (nat_of_ascii lo <=? nat_of_ascii c)%nat && (nat_of_ascii c <=? nat_of_ascii hi)%nat.

(** A piece of the expression: the number it read and the rest of the
    input, or no match. *)
Definition matcher : Type := string -> option (Z * string).

(** [\d\d\d\d] *)
Definition year_re : matcher := fun s =>
  match s with
  | String a (String b (String c (String d rest))) =>
      if is_digit a && is_digit b && is_digit c && is_digit d
      then Some (1000 * digit_val a + 100 * digit_val b + 10 * digit_val c + digit_val d, rest)%Z
      else None
  | _ => None
  end.

(** Two characters, each from a range: [1[0-2]], [0[1-9]], [3[0-1]], ... *)
Definition two_chars (lo1 hi1 lo2 hi2 : ascii) : matcher := fun s =>
  match s with
  | String a (String b rest) =>
      if in_range lo1 hi1 a && in_range lo2 hi2 b
      then Some (10 * digit_val a + digit_val b, rest)%Z
      else None
  | _ => None
  end.

(** One character from [1-9] *)
Definition one_char : matcher := fun s =>
  match s with
  | String a rest => if in_range "1" "9" a then Some (digit_val a, rest) else None
  | _ => None
  end.

(** A space, then one character from [1-9] *)
Definition space_char : matcher := fun s =>
  match s with
  | String " " rest => one_char rest
  | _ => None
  end.

Definition month_re : list matcher :=
  [two_chars "1" "1" "0" "2"; two_chars "0" "0" "1" "9"; one_char].

Definition day_re : list matcher :=
  [two_chars "3" "3" "0" "1"; two_chars "1" "2" "0" "9"; two_chars "0" "0" "1" "9";
   one_char; space_char].

Definition dash {B} (k : string -> option B) (s : string) : option B :=
  match s with
  | String "-" rest => k rest
  | _ => None
  end.

(** Alternation with backtracking: the first alternative after which the
    rest of the expression [k] matches too. *)
Fixpoint first_match {B} (alts : list matcher) (k : Z -> string -> option B)
    (s : string) : option B :=
  match alts with
  | [] => None
  | alt :: alts' =>
      match alt s with
      | Some (v, rest) =>
          match k v rest with
          | Some r => Some r
          | None => first_match alts' k s
          end
      | None => first_match alts' k s
      end
  end.

(** [format_regex.match(data_string)]: year, month, day and what is left *)
Definition regex_match (s : string) : option (Z * Z * Z * string) :=
  match year_re s with
  | Some (y, s1) =>
      dash (first_match month_re (fun m s2 =>
        dash (first_match day_re (fun d s3 => Some (y, m, d, s3))) s2)) s1
  | None => None
  end.

Definition _is_leap (year : Z) : bool :=
  (year mod 4 =? 0)%Z && (negb (year mod 100 =? 0)%Z || (year mod 400 =? 0)%Z).

Definition _DAYS_IN_MONTH : list Z := [31; 28; 31; 30; 31; 30; 31; 31; 30; 31; 30; 31]%Z.

Definition _days_in_month (year month : Z) : Z :=
  if (month =? 2)%Z && _is_leap year then 29%Z
  else nth (Z.to_nat (month - 1)) _DAYS_IN_MONTH 0%Z.

Definition _days_before_year (year : Z) : Z :=
  let y := (year - 1)%Z in (y * 365 + y / 4 - y / 100 + y / 400)%Z.

(** Days of the year before the first of [month] *)
Definition _days_before_month (year month : Z) : Z :=
  (Py.sum (firstn (Z.to_nat (month - 1)) _DAYS_IN_MONTH)
   + (if (2 <? month)%Z && _is_leap year then 1 else 0))%Z.

Definition _ymd2ord (year month day : Z) : Z :=
  (_days_before_year year + _days_before_month year month + day)%Z.

Record date : Type := { year : Z; month : Z; day : Z }.

(** The checks of the [date] constructor: MINYEAR is 1, MAXYEAR 9999. *)
Definition valid_date (y m d : Z) : bool :=
  (1 <=? y)%Z && (y <=? 9999)%Z && (1 <=? m)%Z && (m <=? 12)%Z
  && (1 <=? d)%Z && (d <=? _days_in_month y m)%Z.

(** [datetime.datetime.strptime(s, "%Y-%m-%d")]: every failure is a
    ValueError. *)
Definition strptime (s : string) : outcome date :=
  match regex_match s with
  | None => Raises ValueError
  | Some (y, m, d, rest) =>
      match rest with
      | String _ _ => Raises ValueError
      | EmptyString =>
          if valid_date y m d
          then Returns {| year := y; month := m; day := d |}
          else Raises ValueError
      end
  end.

Definition toordinal (d : date) : Z := _ymd2ord (year d) (month d) (day d).

(** [d.weekday()]: Monday is 0, Sunday is 6. *)
Definition weekday (d : date) : nat := Z.to_nat ((toordinal d + 6) mod 7).

(** [calendar.day_name] in the C locale, which the script never changes. *)
Definition day_name : list string :=
  ["Monday"; "Tuesday"; "Wednesday"; "Thursday"; "Friday"; "Saturday"; "Sunday"].

End Datetime.

(** ** JSON values, as the Garmin client returns them *)

#[local] Set Warnings "-register-all".

Inductive json : Type :=
| JNull
| JBool (b : bool)
| JNum (n : Z)
| JStr (s : string)
| JArr (l : list json)
| JObj (m : gmap string json).

(** [j[k]] with a string key: only a dict can be subscripted by a string,
    and an absent key raises KeyError. *)
Definition subscript (j : json) (k : string) : outcome json :=
  match j with
  | JObj m =>
      match m !! k with
      | Some v => Returns v
      | None => Raises (KeyError k)
      end
  | _ => Raises TypeError
  end.

(** ** Lookup tables (lines 28-50) *)

Definition feedback_mapping : gmap string string :=
  {[ "NEGATIVE_NOT_RESTORATIVE" := "Sleep is observed to be non-restorative, likely indicating poor sleep quality. This could be due to various factors such as stress, late bedtime, or other disturbances.";
     "NEGATIVE_LONG_BUT_NOT_RESTORATIVE" := "Although sleep duration is extended, it is still not restorative. This may be influenced by factors like very strenuous exercise, impacting the overall restfulness of the sleep.";
     "NEGATIVE_SHORT_AND_POOR_QUALITY" := "Sleep duration is short, and the quality is poor. This could be a result of insufficient sleep time or other factors affecting the overall sleep experience.";
     "NEGATIVE_SHORT_AND_NONRECOVERING" := "Sleep is short, and there's inadequate recovery, likely influenced by factors such as late bedtime. The sleep lacks the necessary duration for proper restoration.";
     "POSITIVE_OPTIMAL_STRUCTURE" := "Sleep is structured optimally, suggesting a positive sleep pattern without any notable issues or disturbances. This is indicative of good sleep quality.";
     "POSITIVE_LONG_AND_CALM" := "Sleep duration is long and characterized by a calm state. This positive sleep pattern is observed, potentially contributing to better overall well-being.";
     "POSITIVE_LONG_AND_CONTINUOUS" := "Sleep duration is both long and continuous, implying a positive and uninterrupted sleep experience. This is generally associated with better restfulness.";
     "POSITIVE_DEEP" := "Deep sleep is observed, indicating a positive aspect of the sleep cycle. However, it might be impacted by external factors, such as a stressful day, affecting the overall sleep experience." ]}.

(** [feedback_mapping.get(sleep_feedback, sleep_feedback)] *)
Definition get_sleep_feedback_explanation (sleep_feedback : string) : string :=
  default sleep_feedback (feedback_mapping !! sleep_feedback).

Definition insight_mapping : gmap string string :=
  {[ "NONE" := "No specific sleep insight is identified. This could mean that there are no notable external factors influencing the sleep pattern during the analyzed period.";
     "NEGATIVE_LATE_BED_TIME" := "Sleep is negatively affected by a late bedtime. Going to bed late may disrupt the natural sleep-wake cycle, potentially leading to difficulties in falling asleep or achieving restorative sleep.";
     "NEGATIVE_VERY_STRENUOUS_EXERCISE" := "Intense or very strenuous exercise close to bedtime negatively impacts sleep quality. The body needs time to wind down, and vigorous exercise shortly before sleep may interfere with this process.";
     "NEGATIVE_STRESSFUL_DAY" := "Sleep is negatively affected by a stressful day. High stress levels can interfere with the ability to relax and unwind, potentially impacting the overall quality of sleep.";
     "POSITIVE_EXERCISE" := "The positive influence of exercise on sleep is observed. Regular physical activity is known to contribute to better sleep quality and overall well-being.";
     "POSITIVE_LATE_BED_TIME" := "Going to bed late is observed as a positive factor in this context. It's important to note that individual sleep preferences and rhythms can vary, and for some, a later bedtime may align with better sleep quality." ]}.

Definition get_sleep_insight_explanation (sleep_insight : string) : string :=
  default sleep_insight (insight_mapping !! sleep_insight).


(** ** Entries and the rendering context *)

(** What [extract_values] keeps of one body-battery entry: a dict with the
    three keys [date], [charged] and [drained]. *)
Record battery_entry : Type := {
  bb_date : json;
  bb_charged : json;
  bb_drained : json
}.

(** [new_entry] of the aggregation loop: a dict with twelve fixed keys whose
    values are whatever the provider sent. *)
Record combined_entry : Type := {
  ce_date : json;
  ce_charged : json;
  ce_drained : json;
  ce_sleep_seconds : json;
  ce_deep_sleep_seconds : json;
  ce_light_sleep_seconds : json;
  ce_rem_sleep_seconds : json;
  ce_awake_sleep_seconds : json;
  ce_sleep_feedback : json;
  ce_sleep_insight : json;
  ce_avg_stress_level : json;
  ce_max_stress_level : json
}.

(** An entry of [data] as the report functions use it: the same twelve keys,
    with the value types of the data model (an ISO date string, integers,
    explanation strings). *)
Record DailyRecord : Type := {
  date : string;
  charged : Z;
  drained : Z;
  sleep_seconds : Z;
  deep_sleep_seconds : Z;
  light_sleep_seconds : Z;
  rem_sleep_seconds : Z;
  awake_sleep_seconds : Z;
  sleep_feedback : string;
  sleep_insight : string;
  avg_stress_level : Z;
  max_stress_level : Z
}.

(** The keyword arguments of [template.render] (lines 247-261). *)
Module Template.
Record context : Type := {
  graph_output_filename : string;
  stress_graph_output_filename : string;
  sleep_graph_output_filename : string;
  advice : string;
  total_charged : Z;
  total_drained : Z;
  net_energy_level : Z;
  average_trend : string;
  negative_days : nat;
  positive_days : nat;
  negative_days_array : list DailyRecord;
  positive_days_array : list DailyRecord;
  max_day_of_week_negative : string
}.
End Template.

(** One chat message: role and content. *)
Record message : Type := { role : string; content : string }.

(** One matplotlib figure of [save_drained_vs_charged_plot]: the labelled
    lines over the dates and the translucent bars behind them. *)
Record figure : Type := {
  fig_file : string;
  fig_title : string;
  fig_ylabel : string;
  fig_dates : list string;
  fig_lines : list (string * list Z);
  fig_bars : list (string * Z * string)
}.

(** ** Programs over external calls *)

(** The calls that leave the script. *)
Inductive ext : Type :=
| GetSleepData (cdate : json)
| GetStressData (cdate : json)
| OpenAIClient
| ChatCompletion (model : string) (messages : list message) (max_tokens : Z)
| SaveFig (fig : figure)
| ReadFile (name : string)
| RenderTemplate (template_content : string) (ctx : Template.context)
| WriteFile (name : string) (text : string).

(** What each call returns when it does not raise. *)
Definition resp (ev : ext) : Type :=
  match ev with
  | GetSleepData _ | GetStressData _ => json
  | OpenAIClient => unit
  | ChatCompletion _ _ _ => string
  | SaveFig _ => unit
  | ReadFile _ => string
  | RenderTemplate _ _ => string
  | WriteFile _ _ => unit
  end.

Inductive Prog (A : Type) : Type :=
| Ret (a : A)
| Throw (e : exn)
| Vis (ev : ext) (k : resp ev -> Prog A).
Arguments Ret {A} a.
Arguments Throw {A} e.
Arguments Vis {A} ev k.

Fixpoint bind {A B} (p : Prog A) (f : A -> Prog B) : Prog B :=
  match p with
  | Ret a => f a
  | Throw e => Throw e
  | Vis ev k => Vis ev (fun x => bind (k x) f)
  end.

#[global] Instance Prog_ret : MRet Prog := fun _ a => Ret a.
#[global] Instance Prog_bind : MBind Prog := fun _ _ f p => bind p f.

(** Perform one external call. *)
Definition call (ev : ext) : Prog (resp ev) := Vis ev Ret.

(** A computation that only may raise, as a program. *)
Definition lift {A} (r : outcome A) : Prog A :=
  match r with Returns a => Ret a | Raises e => Throw e end.

(** The result of running a program: its value or the exception that ended
    it, the world afterwards, and the external calls made, in order. *)
Record run_result (W A : Type) : Type := {
  value : outcome A;
  world : W;
  trace : list ext
}.
Arguments value {W A} r.
Arguments world {W A} r.
Arguments trace {W A} r.

(** The result [r] of the rest of a run, after the call [ev] was answered. *)
Definition after {W A} (ev : ext) (r : run_result W A) : run_result W A :=
  {| value := value r; world := world r; trace := ev :: trace r |}.

Section Run.
Context {W : Type}.
(** The environment: how each call answers in a world, and the world it
    leaves.  A raising call ends the program: nothing in the script
    catches an exception on these paths. *)
Variable handle : forall ev : ext, W -> outcome (resp ev) * W.

Fixpoint run {A} (p : Prog A) (w : W) : run_result W A :=
  match p with
  | Ret a => {| value := Returns a; world := w; trace := [] |}
  | Throw e => {| value := Raises e; world := w; trace := [] |}
  | Vis ev k =>
      match handle ev w with
      | (Returns x, w') => after ev (run (k x) w')
      | (Raises e, w') => {| value := Raises e; world := w'; trace := [ev] |}
      end
  end.
End Run.

(** ** The aggregation (lines 52-56 and 334-368) *)

Definition extract_values (json_data : list json) : outcome (list battery_entry) :=
  mapM (λ entry,
    d ← subscript entry "date";
    c ← subscript entry "charged";
    r ← subscript entry "drained";
    mret {| bb_date := d; bb_charged := c; bb_drained := r |}) json_data.

(** [mapping.get(code, code)] on a value from the provider: a string is
    looked up, a list or a dict cannot be hashed, and any other value is
    not a key and comes back as it is. *)
Definition explain (explanation : string → string) (code : json) : outcome json :=
  match code with
  | JStr s => Returns (JStr (explanation s))
  | JArr _ | JObj _ => Raises TypeError
  | _ => Returns code
  end.

(** [j[k1][k2]] *)
Definition subscript2 (j : json) (k1 k2 : string) : outcome json :=
  d ← subscript j k1; subscript d k2.

(** The body of the loop for one [entry] of [bb_result_array]. *)
Definition new_entry (entry : battery_entry) : Prog combined_entry :=
  let date := bb_date entry in
  sleep_data ← call (GetSleepData date);
  sleep_seconds ← lift (subscript2 sleep_data "dailySleepDTO" "sleepTimeSeconds");
  deep_sleep_seconds ← lift (subscript2 sleep_data "dailySleepDTO" "deepSleepSeconds");
  light_sleep_seconds ← lift (subscript2 sleep_data "dailySleepDTO" "lightSleepSeconds");
  rem_sleep_seconds ← lift (subscript2 sleep_data "dailySleepDTO" "remSleepSeconds");
  awake_sleep_seconds ← lift (subscript2 sleep_data "dailySleepDTO" "awakeSleepSeconds");
  sleep_feedback ← lift (subscript2 sleep_data "dailySleepDTO" "sleepScoreFeedback"
                          ≫= explain get_sleep_feedback_explanation);
  sleep_insight ← lift (subscript2 sleep_data "dailySleepDTO" "sleepScoreInsight"
                         ≫= explain get_sleep_insight_explanation);
  stress_data ← call (GetStressData date);
  avg_stress_level ← lift (subscript stress_data "avgStressLevel");
  max_stress_level ← lift (subscript stress_data "maxStressLevel");
  mret {| ce_date := date;
          ce_charged := bb_charged entry;
          ce_drained := bb_drained entry;
          ce_sleep_seconds := sleep_seconds;
          ce_deep_sleep_seconds := deep_sleep_seconds;
          ce_light_sleep_seconds := light_sleep_seconds;
          ce_rem_sleep_seconds := rem_sleep_seconds;
          ce_awake_sleep_seconds := awake_sleep_seconds;
          ce_sleep_feedback := sleep_feedback;
          ce_sleep_insight := sleep_insight;
          ce_avg_stress_level := avg_stress_level;
          ce_max_stress_level := max_stress_level |}.

(** [for entry in bb_result_array: ... combined_data_array.append(new_entry)] *)
Fixpoint aggregation_loop (bb_result_array : list battery_entry)
    (combined_data_array : list combined_entry) : Prog (list combined_entry) :=
  match bb_result_array with
  | [] => mret combined_data_array
  | entry :: rest =>
      e ← new_entry entry;
      aggregation_loop rest (combined_data_array ++ [e])
  end.

(** From the provider's body-battery answer to [combined_data_array]. *)
Definition combined_data_array (body_battery : list json) : Prog (list combined_entry) :=
  bb_result_array ← lift (extract_values body_battery);
  aggregation_loop bb_result_array [].

(** ** The charts (lines 95-174) *)

(** One bar per date, at the larger of the two values: green when more was
    charged than drained, red otherwise. *)
Definition bars (data : list DailyRecord) : list (string * Z * string) :=
  map (λ entry, (date entry, Z.max (charged entry) (drained entry),
                 if decide (charged entry > drained entry)%Z then "green" else "red")) data.

Definition save_drained_vs_charged_plot (data : list DailyRecord) : Prog unit :=
  let dates := map date data in
  call (SaveFig {| fig_file := "charged_vs_drained_plot.png";
                   fig_title := "Charged vs Drained";
                   fig_ylabel := "Value";
                   fig_dates := dates;
                   fig_lines := [("Charged", map charged data); ("Drained", map drained data)];
                   fig_bars := bars data |});;
  call (SaveFig {| fig_file := "stress_level.png";
                   fig_title := "Stress Level Statistics";
                   fig_ylabel := "Stress Level";
                   fig_dates := dates;
                   fig_lines := [("Average Stress Level", map avg_stress_level data);
                                 ("Max Stress Level", map max_stress_level data)];
                   fig_bars := bars data |});;
  call (SaveFig {| fig_file := "sleep_statistics.png";
                   fig_title := "Sleep Statistics";
                   fig_ylabel := "Sleep Statistics (Seconds)";
                   fig_dates := dates;
                   fig_lines := [("Sleep Seconds", map sleep_seconds data);
                                 ("Deep Sleep Seconds", map deep_sleep_seconds data);
                                 ("Light Sleep Seconds", map light_sleep_seconds data);
                                 ("REM Sleep Seconds", map rem_sleep_seconds data);
                                 ("Awake Sleep Seconds", map awake_sleep_seconds data)];
                   fig_bars := bars data |}).

(** ** The narrative request (lines 176-203) *)

Definition gpt_assistant_prompt : string :=
  "You are an expert sleep, stress and health expert. You spend all your time analyzing sleep and stress data and how it influences the energy level of people. You will analyse the following data to provide an advice on how to improve daily positive energy balances.".

(** The client is created first, then the prompt is formatted, which reads
    [dates[0]] and [dates[-1]], then the one request is made.  The sampling
    temperature (0.7) is a constant of the request and is left out of the
    event. *)
Definition generate_energy_balance_analysis (data : list DailyRecord) : Prog string :=
  let dates := map date data in
  let charged := map charged data in
  let drained := map drained data in
  let sleep_seconds := map sleep_seconds data in
  let avg_stress_level := map avg_stress_level data in
  let sleep_feedback := map sleep_feedback data in
  let sleep_insight := map sleep_insight data in
  call OpenAIClient;;
  first ← lift (Py.getitem dates 0);
  final ← lift (Py.getlast dates);
  let prompt :=
    "Analyse the energy balance data from " +:+ first +:+ " to " +:+ final +:+
    ". Body battery charged and drained, sleep, and stress levels. Also include the sleep insights and sleep feedback so you can identify which factors cause negative energy balance and which factors cause a positive day." in
  let context :=
    Py.nl +:+ Py.nl +:+ "Dates: " +:+ Py.join ", " dates +:+
    Py.nl +:+ "Charged: " +:+ Py.join ", " (map Py.str charged) +:+
    Py.nl +:+ "Drained: " +:+ Py.join ", " (map Py.str drained) +:+
    Py.nl +:+ "Sleep (seconds): " +:+ Py.join ", " (map Py.str sleep_seconds) +:+
    Py.nl +:+ "Avg Stress Level: " +:+ Py.join ", " (map Py.str avg_stress_level) +:+
    Py.nl +:+ "Sleep feedback: " +:+ Py.join ", " sleep_feedback +:+
    Py.nl +:+ "Sleep insight: " +:+ Py.join ", " sleep_insight +:+ Py.nl +:+ Py.nl in
  let input_text := prompt +:+ context in
  let message := [ {| role := "assistant"; content := gpt_assistant_prompt |};
                   {| role := "user"; content := input_text |} ] in
  call (ChatCompletion "gpt-4" message 1200).

(** ** The report (lines 205-264) *)

(** Lines 208-210 *)
Definition total_charged (data : list DailyRecord) : Z := Py.sum (map charged data).
Definition total_drained (data : list DailyRecord) : Z := Py.sum (map drained data).
Definition net_energy_level (data : list DailyRecord) : Z :=
  (total_charged data - total_drained data)%Z.

(** Line 214 *)
Definition average_trend (data : list DailyRecord) : string :=
  if decide (net_energy_level data >= 0)%Z then "Net Positive" else "Net Negative".

(** Lines 216-223: the same two filters, written twice. *)
Definition negative_days (data : list DailyRecord) : list DailyRecord :=
  filter (λ entry, (charged entry < drained entry)%Z) data.
Definition positive_days (data : list DailyRecord) : list DailyRecord :=
  filter (λ entry, (charged entry >= drained entry)%Z) data.
Definition negative_days_array (data : list DailyRecord) : list DailyRecord :=
  filter (λ day, (charged day < drained day)%Z) data.
Definition positive_days_array (data : list DailyRecord) : list DailyRecord :=
  filter (λ day, (charged day >= drained day)%Z) data.

(** Lines 225-235: the weekday with the most negative days.  Parsing a date
    may raise; the histogram has seven entries, so [max] and [index] are
    modelled with their failure cases and shown never to take them. *)
Definition days_of_week (negative_days : list DailyRecord) : outcome (list nat) :=
  mapM (λ entry, Datetime.weekday <$> Datetime.strptime (date entry)) negative_days.

Definition day_of_week_counts (days_of_week : list nat) : list nat :=
  map (λ day, Py.count days_of_week day) (seq 0 7).

Definition max_day_of_week_negative (data : list DailyRecord) : outcome string :=
  match negative_days data with
  | [] => Returns "N/A"
  | _ :: _ =>
      days ← days_of_week (negative_days data);
      m ← Py.max (day_of_week_counts days);
      i ← Py.index (day_of_week_counts days) m;
      Py.getitem Datetime.day_name i
  end.

(** Lines 239-241: the three replacements, in order. *)
Definition postprocess (advice : string) : string :=
  let advice := Py.str_replace advice Py.nl "<br>" in
  let advice := Py.str_replace advice "** " "</b>" in
  let advice := Py.str_replace advice "** " "<b>" in
  advice.

(** The assignments that cannot raise are the definitions above; what is
    sequenced here are the statements that call out or may raise, in the
    order of the source: the narrative request, the weekday analysis, the
    charts, the template file, the rendering, the report file.  Nothing on
    the way mutates [data] or its entries. *)
Definition generate_html_report (data : list DailyRecord)
    (report_output_filename : string) : Prog unit :=
  advice ← generate_energy_balance_analysis data;
  max_day ← lift (max_day_of_week_negative data);
  save_drained_vs_charged_plot data;;
  let advice := postprocess advice in
  template_content ← call (ReadFile "energy_report_template.html");
  html_report ← call (RenderTemplate template_content
    {| Template.graph_output_filename := "charged_vs_drained_plot.png";
       Template.stress_graph_output_filename := "stress_level.png";
       Template.sleep_graph_output_filename := "sleep_statistics.png";
       Template.advice := advice;
       Template.total_charged := total_charged data;
       Template.total_drained := total_drained data;
       Template.net_energy_level := net_energy_level data;
       Template.average_trend := average_trend data;
       Template.negative_days := length (negative_days data);
       Template.positive_days := length (positive_days data);
       Template.negative_days_array := negative_days_array data;
       Template.positive_days_array := positive_days_array data;
       Template.max_day_of_week_negative := max_day |});
  call (WriteFile report_output_filename html_report).

(** ** What the specification calls a WindowSummary *)

(** Following the specification's data model: the part of the rendering
    context that summarises the window. *)
Record WindowSummary : Type := {
  totalCharged : Z;
  totalDrained : Z;
  netEnergy : Z;
  trendLabel : string;
  negativeDays : list DailyRecord;
  positiveDays : list DailyRecord;
  worstWeekday : string
}.

Definition window_summary (ctx : Template.context) : WindowSummary :=
  {| totalCharged := Template.total_charged ctx;
     totalDrained := Template.total_drained ctx;
     netEnergy := Template.net_energy_level ctx;
     trendLabel := Template.average_trend ctx;
     negativeDays := Template.negative_days_array ctx;
     positiveDays := Template.positive_days_array ctx;
     worstWeekday := Template.max_day_of_week_negative ctx |}.

(** The names of the codes, as the specification counts them: 8 for sleep
    feedback and 6 for sleep insight. *)
Definition feedback_codes : list string :=
  ["NEGATIVE_NOT_RESTORATIVE"; "NEGATIVE_LONG_BUT_NOT_RESTORATIVE";
   "NEGATIVE_SHORT_AND_POOR_QUALITY"; "NEGATIVE_SHORT_AND_NONRECOVERING";
   "POSITIVE_OPTIMAL_STRUCTURE"; "POSITIVE_LONG_AND_CALM";
   "POSITIVE_LONG_AND_CONTINUOUS"; "POSITIVE_DEEP"].

Definition insight_codes : list string :=
  ["NONE"; "NEGATIVE_LATE_BED_TIME"; "NEGATIVE_VERY_STRENUOUS_EXERCISE";
   "NEGATIVE_STRESSFUL_DAY"; "POSITIVE_EXERCISE"; "POSITIVE_LATE_BED_TIME"].

(** Following the specification's words for a field of a provider
    structure: the value found along a path of keys, or none when a key on
    the way is absent or the value there is not a dict. *)
Fixpoint field (j : json) (path : list string) : option json :=
  match path with
  | [] => Some j
  | k :: path' =>
      match j with
      | JObj m => m !! k ≫= λ v, field v path'
      | _ => None
      end
  end.

(** The fields the aggregation requires of the three structures. *)
Definition required_battery : list string := ["date"; "charged"; "drained"].
Definition required_sleep : list string :=
  ["sleepTimeSeconds"; "deepSleepSeconds"; "lightSleepSeconds"; "remSleepSeconds";
   "awakeSleepSeconds"; "sleepScoreFeedback"; "sleepScoreInsight"].
Definition required_stress : list string := ["avgStressLevel"; "maxStressLevel"].

Section Aggregated.
Context {W : Type}.
Variable handle : forall ev : ext, W -> outcome (resp ev) * W.

(** The entry [e] holds, for its date, values that the provider's sleep
    and stress answers hold under the required fields (the two codes
    passed through their lookup tables). *)
Definition from_answers (e : combined_entry) : Prop :=
  ∃ w0 sleep w1 stress w2 feedback insight,
    handle (GetSleepData (ce_date e)) w0 = (Returns sleep, w1)
    ∧ handle (GetStressData (ce_date e)) w1 = (Returns stress, w2)
    ∧ field sleep ["dailySleepDTO"; "sleepTimeSeconds"] = Some (ce_sleep_seconds e)
    ∧ field sleep ["dailySleepDTO"; "deepSleepSeconds"] = Some (ce_deep_sleep_seconds e)
    ∧ field sleep ["dailySleepDTO"; "lightSleepSeconds"] = Some (ce_light_sleep_seconds e)
    ∧ field sleep ["dailySleepDTO"; "remSleepSeconds"] = Some (ce_rem_sleep_seconds e)
    ∧ field sleep ["dailySleepDTO"; "awakeSleepSeconds"] = Some (ce_awake_sleep_seconds e)
    ∧ field sleep ["dailySleepDTO"; "sleepScoreFeedback"] = Some feedback
    ∧ explain get_sleep_feedback_explanation feedback = Returns (ce_sleep_feedback e)
    ∧ field sleep ["dailySleepDTO"; "sleepScoreInsight"] = Some insight
    ∧ explain get_sleep_insight_explanation insight = Returns (ce_sleep_insight e)
    ∧ field stress ["avgStressLevel"] = Some (ce_avg_stress_level e)
    ∧ field stress ["maxStressLevel"] = Some (ce_max_stress_level e).

(** The entry [e] was aggregated from the body-battery structure [j]. *)
Definition aggregated (j : json) (e : combined_entry) : Prop :=
  field j ["date"] = Some (ce_date e)
  ∧ field j ["charged"] = Some (ce_charged e)
  ∧ field j ["drained"] = Some (ce_drained e)
  ∧ from_answers e.
End Aggregated.

(** Whether the bold delimiter occurs somewhere in a text. *)
Fixpoint has_bold (s : string) : bool :=
  match s with
  | EmptyString => false
  | String _ s' => String.prefix "** " s || has_bold s'
  end.

(** Whether a character occurs in a text. *)
Fixpoint has_char (c : ascii) (s : string) : bool :=
  match s with
  | EmptyString => false
  | String c' s' => bool_decide (c' = c) || has_char c s'
  end.

(** Following the specification's words for line breaks: every newline
    becomes the line-break markup, every other character stays. *)
Fixpoint line_breaks (s : string) : string :=
  match s with
  | EmptyString => EmptyString
  | String c s' =>
      if bool_decide (c = "010"%char) then "<br>" +:+ line_breaks s'
      else String c (line_breaks s')
  end.

(** Following the specification's words for emphasis: the occurrences of
    the delimiter, from the left and without overlap, become alternately an
    opening and a closing marker.  [opening] tells which one is next. *)
Fixpoint alternate_from (opening : bool) (skip : nat) (s : string) : string :=
  match s with
  | EmptyString => EmptyString
  | String c s' =>
      match skip with
      | S n => alternate_from opening n s'
      | O =>
          if String.prefix "** " s
          then (if opening then "<b>" else "</b>") +:+ alternate_from (negb opening) 2 s'
          else String c (alternate_from opening 0 s')
      end
  end.

Definition postprocess_paired (advice : string) : string :=
  alternate_from true 0 (line_breaks advice).

(** The files of the figures saved during a run, in order. *)
Definition saved_files (t : list ext) : list string :=
  omap (λ ev, match ev with SaveFig fig => Some (fig_file fig) | _ => None end) t.

(** The contexts handed to the template renderer during a run. *)
Definition rendered (t : list ext) : list Template.context :=
  omap (λ ev, match ev with RenderTemplate _ ctx => Some ctx | _ => None end) t.

(** ** A sample window and a sample environment *)

Module Sample.

Definition report_file : string := "energy_report.html".

Definition day (d : string) (c r : Z) : DailyRecord :=
  {| date := d; charged := c; drained := r;
     sleep_seconds := 27000; deep_sleep_seconds := 5400; light_sleep_seconds := 16200;
     rem_sleep_seconds := 4500; awake_sleep_seconds := 900;
     sleep_feedback := get_sleep_feedback_explanation "POSITIVE_DEEP";
     sleep_insight := get_sleep_insight_explanation "NONE";
     avg_stress_level := 31; max_stress_level := 92 |}.

(** The end-to-end window of the specification. *)
Definition window : list DailyRecord :=
  [day "2024-01-01" 50 80; day "2024-01-02" 90 40].

(** Negative days on a Wednesday and on a Monday, one each, and a positive
    Tuesday. *)
Definition tie_window : list DailyRecord :=
  [day "2024-01-03" 10 20; day "2024-01-09" 30 5; day "2024-01-15" 40 60].

Definition sleep_answer : json :=
  JObj {[ "dailySleepDTO" := JObj {[ "sleepTimeSeconds" := JNum 27000;
                                      "deepSleepSeconds" := JNum 5400;
                                      "lightSleepSeconds" := JNum 16200;
                                      "remSleepSeconds" := JNum 4500;
                                      "awakeSleepSeconds" := JNum 900;
                                      "sleepScoreFeedback" := JStr "POSITIVE_DEEP";
                                      "sleepScoreInsight" := JStr "SOME_NEW_CODE" ]} ]}.

(** A sleep answer without the deep-sleep duration. *)
Definition sleep_answer_incomplete : json :=
  JObj {[ "dailySleepDTO" := JObj {[ "sleepTimeSeconds" := JNum 27000;
                                      "lightSleepSeconds" := JNum 16200;
                                      "remSleepSeconds" := JNum 4500;
                                      "awakeSleepSeconds" := JNum 900;
                                      "sleepScoreFeedback" := JStr "POSITIVE_DEEP";
                                      "sleepScoreInsight" := JStr "NONE" ]} ]}.

Definition stress_answer : json :=
  JObj {[ "avgStressLevel" := JNum 31; "maxStressLevel" := JNum 92 ]}.

Definition battery_answer (d : string) (c r : Z) : json :=
  JObj {[ "date" := JStr d; "charged" := JNum c; "drained" := JNum r ]}.

Definition generated_text : string :=
  "Keep a ** steady ** bedtime." +:+ Py.nl +:+ "Rest more.".

(** A world that counts the calls made so far; every call succeeds.  The
    narrative changes from one request to the next, as a sampled text
    would. *)
Definition handle (ev : ext) (w : nat) : outcome (resp ev) * nat :=
  match ev with
  | GetSleepData _ => (Returns sleep_answer, S w)
  | GetStressData _ => (Returns stress_answer, S w)
  | OpenAIClient => (Returns tt, S w)
  | ChatCompletion _ _ _ => (Returns (generated_text +:+ pretty w), S w)
  | SaveFig _ => (Returns tt, S w)
  | ReadFile _ => (Returns "<html>{{ advice }}</html>", S w)
  | RenderTemplate t _ => (Returns t, S w)
  | WriteFile _ _ => (Returns tt, S w)
  end.

(** The same world with a provider whose sleep answers lack a field. *)
Definition handle_incomplete (ev : ext) (w : nat) : outcome (resp ev) * nat :=
  match ev as e return outcome (resp e) * nat with
  | GetSleepData _ => (Returns sleep_answer_incomplete, S w)
  | e => handle e w
  end.

(** The context the sample environment renders for the sample window,
    started in the world [w]. *)
Definition rendered_context (data : list DailyRecord) (w : nat) : list Template.context :=
  rendered (trace (run handle (generate_html_report data report_file) w)).

End Sample.

(** ** The stages of a report *)

(** What an external call does for the report, whatever its arguments. *)
Inductive stage : Type :=
| ProviderAsked
| ClientCreated
| NarrativeRequested
| FigureSaved
| TemplateRead
| ContextRendered
| ReportWritten.

Definition stage_of (ev : ext) : stage :=
  match ev with
  | GetSleepData _ | GetStressData _ => ProviderAsked
  | OpenAIClient => ClientCreated
  | ChatCompletion _ _ _ => NarrativeRequested
  | SaveFig _ => FigureSaved
  | ReadFile _ => TemplateRead
  | RenderTemplate _ _ => ContextRendered
  | WriteFile _ _ => ReportWritten
  end.

(** The stages of a report that is written, in order. *)
Definition report_stages : list stage :=
  [ClientCreated; NarrativeRequested; FigureSaved; FigureSaved; FigureSaved;
   TemplateRead; ContextRendered; ReportWritten].

(** ** More sample windows and environments *)

Module Scenario.

(** A negative day whose date is not an ISO date, after a regular one. *)
Definition bad_date_window : list DailyRecord :=
  [Sample.day "2024-01-01" 90 40; Sample.day "01/02/2024" 10 20].

(** A positive day whose date is not an ISO date. *)
Definition bad_positive_window : list DailyRecord :=
  [Sample.day "2024-01-01" 50 80; Sample.day "01/02/2024" 90 40].

(** An environment in which the narrative generator is down. *)
Definition handle_no_narrative (ev : ext) (w : nat) : outcome (resp ev) * nat :=
  match ev as e return outcome (resp e) * nat with
  | ChatCompletion _ _ _ => (Raises (ExternalError "APIConnectionError"), S w)
  | e => Sample.handle e w
  end.

(** An environment without the template file. *)
Definition handle_no_template (ev : ext) (w : nat) : outcome (resp ev) * nat :=
  match ev as e return outcome (resp e) * nat with
  | ReadFile _ => (Raises (ExternalError "FileNotFoundError"), S w)
  | e => Sample.handle e w
  end.

(** A sleep answer whose feedback code is a list. *)
Definition sleep_answer_list_code : json :=
  JObj {[ "dailySleepDTO" := JObj {[ "sleepTimeSeconds" := JNum 27000;
                                      "deepSleepSeconds" := JNum 5400;
                                      "lightSleepSeconds" := JNum 16200;
                                      "remSleepSeconds" := JNum 4500;
                                      "awakeSleepSeconds" := JNum 900;
                                      "sleepScoreFeedback" := JArr [JStr "POSITIVE_DEEP"];
                                      "sleepScoreInsight" := JStr "NONE" ]} ]}.

Definition handle_list_code (ev : ext) (w : nat) : outcome (resp ev) * nat :=
  match ev as e return outcome (resp e) * nat with
  | GetSleepData _ => (Returns sleep_answer_list_code, S w)
  | e => Sample.handle e w
  end.

Definition first_day : battery_entry :=
  {| bb_date := JStr "2024-01-01"; bb_charged := JNum 50; bb_drained := JNum 80 |}.

End Scenario.

(** ** Procedures with exception handling

    [init_api] catches exceptions by class and [send_email_report] talks to
    the file system and to a mail server.  Their external calls are the
    events [io]; an exception is a [pyexn]; a call hands its result or its
    exception to the rest of the procedure, so that a [try] can catch it. *)

(** The exception classes the script names, the NameError of a name that
    is bound nowhere, and any other class (one that is not a subclass of
    those named). *)
Inductive pyexn : Type :=
| FileNotFoundError
| GarthHTTPError
| GarminConnectAuthenticationError
| GarminConnectConnectionError
| GarminConnectTooManyRequestsError
| HTTPError
| NameError (name : string)
| OtherError (class : string).

Inductive answer (A : Type) : Type :=
| Value (a : A)
| Raised (x : pyexn).
Arguments Value {A} a.
Arguments Raised {A} x.

(** A Garmin client object, an SMTP connection object. *)
Definition client : Type := nat.
Definition connection : Type := nat.

(** A part of a multipart message: an image with its Content-ID header and
    data, or the HTML text. *)
Inductive part : Type :=
| ImagePart (content_id : string) (data : string)
| HtmlPart (payload : string).

Record email : Type := {
  subject : string;
  sender : string;
  recipient : string;
  parts : list part
}.

Inductive io : Type :=
| NewGarmin (credentials : option (string * string))
| GarminLogin (c : client) (tokenstore : option string)
| GarthDump (c : client) (path : string)
| GarthDumps (c : client)
| PrintLine (text : string)
| ExpandUser (path : string)
| WriteText (path : string) (text : string)
| ReadText (path : string)
| ReadBytes (path : string)
| SmtpConnect (server : string) (port : Z)
| StartTls (s : connection)
| SmtpLogin (s : connection) (user password : string)
| SendMessage (s : connection) (msg : email)
| SmtpQuit (s : connection).

Definition io_resp (ev : io) : Type :=
  match ev with
  | NewGarmin _ => client
  | GarthDumps _ | ExpandUser _ | ReadText _ | ReadBytes _ => string
  | SmtpConnect _ _ => connection
  | _ => unit
  end.

Inductive Proc (A : Type) : Type :=
| Done (a : A)
| Fail (x : pyexn)
| Do (ev : io) (k : answer (io_resp ev) → Proc A).
Arguments Done {A} a.
Arguments Fail {A} x.
Arguments Do {A} ev k.

Fixpoint pbind {A B} (p : Proc A) (f : A → Proc B) : Proc B :=
  match p with
  | Done a => f a
  | Fail x => Fail x
  | Do ev k => Do ev (λ r, pbind (k r) f)
  end.

#[global] Instance Proc_mret : MRet Proc := λ _ a, Done a.
#[global] Instance Proc_mbind : MBind Proc := λ _ _ f p, pbind p f.

(** One external call: its value, or its exception raised here. *)
Definition perform (ev : io) : Proc (io_resp ev) :=
  Do ev (λ r, match r with Value a => Done a | Raised x => Fail x end).

(** [try: body except classes: handler].  Only exceptions of [body] are
    caught; what the handler raises goes on. *)
Fixpoint try_except {A} (body : Proc A) (classes : pyexn → bool)
    (handler : pyexn → Proc A) : Proc A :=
  match body with
  | Done a => Done a
  | Fail x => if classes x then handler x else Fail x
  | Do ev k => Do ev (λ r, try_except (k r) classes handler)
  end.

(** Evaluating a name that neither the module nor the builtins bind. *)
Definition unbound_name {A} (name : string) : Proc A := Fail (NameError name).

Record outcome_of (W A : Type) : Type := {
  result : answer A;
  final : W;
  calls : list io
}.
Arguments result {W A} o.
Arguments final {W A} o.
Arguments calls {W A} o.

Definition then_call {W A} (ev : io) (o : outcome_of W A) : outcome_of W A :=
  {| result := result o; final := final o; calls := ev :: calls o |}.

Section Exec.
Context {W : Type}.
Variable env : ∀ ev : io, W → answer (io_resp ev) * W.

Fixpoint exec {A} (p : Proc A) (w : W) : outcome_of W A :=
  match p with
  | Done a => {| result := Value a; final := w; calls := [] |}
  | Fail x => {| result := Raised x; final := w; calls := [] |}
  | Do ev k => let '(r, w') := env ev w in then_call ev (exec (k r) w')
  end.
End Exec.

(** ** Logging in (lines 58-93) *)

(** [not x] for a value of [os.getenv]: None and the empty string are
    false. *)
Definition truthy (x : option string) : bool :=
  match x with
  | Some (String _ _) => true
  | _ => false
  end.

Definition token_classes (x : pyexn) : bool :=
  match x with
  | FileNotFoundError | GarthHTTPError | GarminConnectAuthenticationError => true
  | _ => false
  end.

Definition credential_classes (x : pyexn) : bool :=
  match x with
  | FileNotFoundError | GarthHTTPError | GarminConnectAuthenticationError
  | HTTPError => true
  | _ => false
  end.

Definition tokens_missing_text (tokenstore : string) : string :=
  "Login tokens not present, login with your Garmin Connect credentials to generate them."
  +:+ Py.nl +:+ "They will be stored in '" +:+ tokenstore +:+ "' for future use." +:+ Py.nl.

Definition tokens_stored_text (tokenstore : string) : string :=
  "Oauth tokens stored in '" +:+ tokenstore
  +:+ "' directory for future use. (first method)" +:+ Py.nl.

Definition tokens_encoded_text (dir_path : string) : string :=
  "Oauth tokens encoded as base64 string and saved to '" +:+ dir_path
  +:+ "' file for future use. (second method)" +:+ Py.nl.

(** The function returns the client, or None.  [get_credentials] and
    [logger] are bound nowhere in the module. *)
Definition init_api (email password : option string)
    (tokenstore tokenstore_base64 : string) : Proc (option client) :=
  try_except
    (garmin ← perform (NewGarmin None);
     perform (GarminLogin garmin (Some tokenstore));;
     mret (Some garmin))
    token_classes
    (λ _,
       perform (PrintLine (tokens_missing_text tokenstore));;
       try_except
         (credentials ←
            (if negb (truthy email) || negb (truthy password)
             then unbound_name "get_credentials"
             else mret (default "" email, default "" password));
          garmin ← perform (NewGarmin (Some credentials));
          perform (GarminLogin garmin None);;
          perform (GarthDump garmin tokenstore);;
          perform (PrintLine (tokens_stored_text tokenstore));;
          token_base64 ← perform (GarthDumps garmin);
          dir_path ← perform (ExpandUser tokenstore_base64);
          perform (WriteText dir_path token_base64);;
          perform (PrintLine (tokens_encoded_text dir_path));;
          mret (Some garmin))
         credential_classes
         (λ err, (unbound_name "logger" : Proc unit);; mret None)).

(** ** Sending the report (lines 266-301) *)

(** The settings the function reads from the module's globals. *)
Record mail_settings : Type := {
  from_address : string;
  smtp_server : string;
  smtp_port : Z;
  smtp_user : string;
  smtp_password : string
}.

Definition image_files : list string :=
  ["charged_vs_drained_plot.png"; "stress_level.png"; "sleep_statistics.png"].

(** The first loop: read each image and attach it under its Content-ID. *)
Fixpoint attach_images (files : list string) (attached : list part) : Proc (list part) :=
  match files with
  | [] => mret attached
  | image_file :: rest =>
      data ← perform (ReadBytes image_file);
      attach_images rest (attached ++ [ImagePart ("<" +:+ image_file +:+ ">") data])
  end.

(** The second loop: refer to each image by its Content-ID. *)
Definition refer_by_cid (html_report_content : string) (files : list string) : string :=
  fold_left (λ html image_file, Py.str_replace html image_file ("cid:" +:+ image_file))
            files html_report_content.

Definition send_email_report (cfg : mail_settings) (to_address report_output_filename
    subject : string) : Proc unit :=
  html_report_content ← perform (ReadText report_output_filename);
  attached ← attach_images image_files [];
  let html_report_content := refer_by_cid html_report_content image_files in
  let msg := {| subject := subject;
                sender := from_address cfg;
                recipient := to_address;
                parts := attached ++ [HtmlPart html_report_content] |} in
  s ← perform (SmtpConnect (smtp_server cfg) (smtp_port cfg));
  perform (StartTls s);;
  perform (SmtpLogin s (smtp_user cfg) (smtp_password cfg));;
  perform (SendMessage s msg);;
  perform (SmtpQuit s).

(** ** Sample environments for logging in and for sending *)

Module Desk.

(** A world that counts the calls.  The answers of the token login, of the
    credential login, of reading an image and of sending are given; every
    other call succeeds. *)
Definition env (token_login credential_login : answer unit) (image : answer string)
    (send : answer unit) (ev : io) (w : nat) : answer (io_resp ev) * nat :=
  match ev as e return answer (io_resp e) * nat with
  | NewGarmin _ => (Value w, S w)
  | GarminLogin _ ts =>
      (match ts with Some _ => token_login | None => credential_login end, S w)
  | GarthDump _ _ => (Value tt, S w)
  | GarthDumps _ => (Value "dG9rZW5z", S w)
  | PrintLine _ => (Value tt, S w)
  | ExpandUser _ => (Value "/home/user/.garminconnect_base64", S w)
  | WriteText _ _ => (Value tt, S w)
  | ReadText _ => (Value "<img src='stress_level.png'>", S w)
  | ReadBytes _ => (image, S w)
  | SmtpConnect _ _ => (Value w, S w)
  | StartTls _ => (Value tt, S w)
  | SmtpLogin _ _ _ => (Value tt, S w)
  | SendMessage _ _ => (send, S w)
  | SmtpQuit _ => (Value tt, S w)
  end.

Definition all_fine : ∀ ev : io, nat → answer (io_resp ev) * nat :=
  env (Value tt) (Value tt) (Value "PNG") (Value tt).

Definition no_tokens : ∀ ev : io, nat → answer (io_resp ev) * nat :=
  env (Raised FileNotFoundError) (Value tt) (Value "PNG") (Value tt).

Definition refused : ∀ ev : io, nat → answer (io_resp ev) * nat :=
  env (Raised FileNotFoundError) (Raised GarminConnectAuthenticationError)
      (Value "PNG") (Value tt).

Definition rate_limited : ∀ ev : io, nat → answer (io_resp ev) * nat :=
  env (Raised GarminConnectTooManyRequestsError) (Value tt) (Value "PNG") (Value tt).

Definition no_image : ∀ ev : io, nat → answer (io_resp ev) * nat :=
  env (Value tt) (Value tt) (Raised FileNotFoundError) (Value tt).

Definition send_refused : ∀ ev : io, nat → answer (io_resp ev) * nat :=
  env (Value tt) (Value tt) (Value "PNG") (Raised (OtherError "SMTPRecipientsRefused")).

Definition settings : mail_settings :=
  {| from_address := "reports@example.org";
     smtp_server := "smtp.example.org";
     smtp_port := 587;
     smtp_user := "reports";
     smtp_password := "secret" |}.

End Desk.

(** Whether a call talks to the mail server. *)
Definition is_smtp (ev : io) : bool :=
  match ev with
  | SmtpConnect _ _ | StartTls _ | SmtpLogin _ _ _ | SendMessage _ _ | SmtpQuit _ => true
  | _ => false
  end.

(** The Content-IDs of the image parts of a message, in order. *)
Definition content_ids (msg : email) : list string :=
  omap (λ p, match p with ImagePart cid _ => Some cid | HtmlPart _ => None end) (parts msg).

(** * Properties *)

(** ** Lookup tables *)

Ltac table_dom :=
  rewrite !dom_insert_L, dom_singleton_L; simpl; set_solver.

Lemma feedback_dom : dom feedback_mapping = list_to_set feedback_codes.
Proof. unfold feedback_mapping, feedback_codes. table_dom. Qed.

Lemma insight_dom : dom insight_mapping = list_to_set insight_codes.
Proof. unfold insight_mapping, insight_codes. table_dom. Qed.

Lemma get_hit (m : gmap string string) (codes : list string) (s : string) :
  dom m = list_to_set codes → s ∈ codes → m !! s = Some (default s (m !! s)).
Proof.
  intros Hdom Hin.
  assert (Hs : s ∈ dom m) by (rewrite Hdom, elem_of_list_to_set; exact Hin).
  apply elem_of_dom in Hs as [t Ht]. rewrite Ht. reflexivity.
Qed.

Lemma get_miss (m : gmap string string) (codes : list string) (s : string) :
  dom m = list_to_set codes → s ∉ codes → default s (m !! s) = s.
Proof.
  intros Hdom Hin.
  assert (Hs : s ∉ dom m) by (rewrite Hdom, elem_of_list_to_set; exact Hin).
  apply not_elem_of_dom in Hs. rewrite Hs. reflexivity.
Qed.

(** C6: both lookup functions are total functions on strings.  For each
    of the 8 sleep-feedback codes [get_sleep_feedback_explanation] returns
    the explanation written out below, and for each of the 6 sleep-insight
    codes [get_sleep_insight_explanation] returns the one written out
    below; these are the texts of lines 30-37 and 43-48.  The tables have
    exactly these codes as keys, and on any other string each function
    returns the string unchanged. *)
Theorem lookup_tables_total :
  (get_sleep_feedback_explanation "NEGATIVE_NOT_RESTORATIVE"
       = "Sleep is observed to be non-restorative, likely indicating poor sleep quality. This could be due to various factors such as stress, late bedtime, or other disturbances."
     ∧ get_sleep_feedback_explanation "NEGATIVE_LONG_BUT_NOT_RESTORATIVE"
       = "Although sleep duration is extended, it is still not restorative. This may be influenced by factors like very strenuous exercise, impacting the overall restfulness of the sleep."
     ∧ get_sleep_feedback_explanation "NEGATIVE_SHORT_AND_POOR_QUALITY"
       = "Sleep duration is short, and the quality is poor. This could be a result of insufficient sleep time or other factors affecting the overall sleep experience."
     ∧ get_sleep_feedback_explanation "NEGATIVE_SHORT_AND_NONRECOVERING"
       = "Sleep is short, and there's inadequate recovery, likely influenced by factors such as late bedtime. The sleep lacks the necessary duration for proper restoration."
     ∧ get_sleep_feedback_explanation "POSITIVE_OPTIMAL_STRUCTURE"
       = "Sleep is structured optimally, suggesting a positive sleep pattern without any notable issues or disturbances. This is indicative of good sleep quality."
     ∧ get_sleep_feedback_explanation "POSITIVE_LONG_AND_CALM"
       = "Sleep duration is long and characterized by a calm state. This positive sleep pattern is observed, potentially contributing to better overall well-being."
     ∧ get_sleep_feedback_explanation "POSITIVE_LONG_AND_CONTINUOUS"
       = "Sleep duration is both long and continuous, implying a positive and uninterrupted sleep experience. This is generally associated with better restfulness."
     ∧ get_sleep_feedback_explanation "POSITIVE_DEEP"
       = "Deep sleep is observed, indicating a positive aspect of the sleep cycle. However, it might be impacted by external factors, such as a stressful day, affecting the overall sleep experience.")
  ∧ (get_sleep_insight_explanation "NONE"
       = "No specific sleep insight is identified. This could mean that there are no notable external factors influencing the sleep pattern during the analyzed period."
     ∧ get_sleep_insight_explanation "NEGATIVE_LATE_BED_TIME"
       = "Sleep is negatively affected by a late bedtime. Going to bed late may disrupt the natural sleep-wake cycle, potentially leading to difficulties in falling asleep or achieving restorative sleep."
     ∧ get_sleep_insight_explanation "NEGATIVE_VERY_STRENUOUS_EXERCISE"
       = "Intense or very strenuous exercise close to bedtime negatively impacts sleep quality. The body needs time to wind down, and vigorous exercise shortly before sleep may interfere with this process."
     ∧ get_sleep_insight_explanation "NEGATIVE_STRESSFUL_DAY"
       = "Sleep is negatively affected by a stressful day. High stress levels can interfere with the ability to relax and unwind, potentially impacting the overall quality of sleep."
     ∧ get_sleep_insight_explanation "POSITIVE_EXERCISE"
       = "The positive influence of exercise on sleep is observed. Regular physical activity is known to contribute to better sleep quality and overall well-being."
     ∧ get_sleep_insight_explanation "POSITIVE_LATE_BED_TIME"
       = "Going to bed late is observed as a positive factor in this context. It's important to note that individual sleep preferences and rhythms can vary, and for some, a later bedtime may align with better sleep quality.")
  ∧ (length feedback_codes = 8 ∧ NoDup feedback_codes
     ∧ dom feedback_mapping = list_to_set feedback_codes)
  ∧ (length insight_codes = 6 ∧ NoDup insight_codes
     ∧ dom insight_mapping = list_to_set insight_codes)
  ∧ (∀ code, code ∈ feedback_codes →
       feedback_mapping !! code = Some (get_sleep_feedback_explanation code))
  ∧ (∀ code, code ∈ insight_codes →
       insight_mapping !! code = Some (get_sleep_insight_explanation code))
  ∧ (∀ s, s ∉ feedback_codes → get_sleep_feedback_explanation s = s)
  ∧ (∀ s, s ∉ insight_codes → get_sleep_insight_explanation s = s).
Proof.
  split; [repeat split; vm_compute; reflexivity|].
  split; [repeat split; vm_compute; reflexivity|].
  split; [|split]; [split; [reflexivity|split] .. |repeat split].
  - apply (bool_decide_unpack _). vm_compute. exact I.
  - apply feedback_dom.
  - apply (bool_decide_unpack _). vm_compute. exact I.
  - apply insight_dom.
  - intros code H. apply (get_hit _ _ _ feedback_dom H).
  - intros code H. apply (get_hit _ _ _ insight_dom H).
  - intros s H. apply (get_miss _ _ _ feedback_dom H).
  - intros s H. apply (get_miss _ _ _ insight_dom H).
Qed.

(** The texts themselves, for one code of each table. *)
Example explain_positive_deep :
  get_sleep_feedback_explanation "POSITIVE_DEEP"
  = "Deep sleep is observed, indicating a positive aspect of the sleep cycle. However, it might be impacted by external factors, such as a stressful day, affecting the overall sleep experience.".
Proof. vm_compute. reflexivity. Qed.

Example explain_none :
  get_sleep_insight_explanation "NONE"
  = "No specific sleep insight is identified. This could mean that there are no notable external factors influencing the sleep pattern during the analyzed period.".
Proof. vm_compute. reflexivity. Qed.

Lemma lookup_tables_total_witness :
  get_sleep_feedback_explanation "POSITIVE_DEEP"
  = "Deep sleep is observed, indicating a positive aspect of the sleep cycle. However, it might be impacted by external factors, such as a stressful day, affecting the overall sleep experience."
  ∧ get_sleep_insight_explanation "NEGATIVE_STRESSFUL_DAY"
    = "Sleep is negatively affected by a stressful day. High stress levels can interfere with the ability to relax and unwind, potentially impacting the overall quality of sleep."
  ∧ get_sleep_feedback_explanation "SOME_NEW_CODE" = "SOME_NEW_CODE"
  ∧ get_sleep_insight_explanation "SOME_NEW_CODE" = "SOME_NEW_CODE".
Proof.
  destruct lookup_tables_total
    as ((_ & _ & _ & _ & _ & _ & _ & Hdeep) & (_ & _ & _ & Hday & _ & _)
        & _ & _ & _ & _ & Hf & Hi).
  split; [exact Hdeep|]. split; [exact Hday|].
  split; [apply Hf | apply Hi]; apply (bool_decide_unpack _); vm_compute; exact I.
Defined.

(** ** Running programs *)

Section RunFacts.
Context {W : Type}.
Variable handle : forall ev : ext, W -> outcome (resp ev) * W.

Lemma run_bind {A B} (p : Prog A) (f : A -> Prog B) (w : W) :
  run handle (bind p f) w =
  match value (run handle p w) with
  | Returns a =>
      let r := run handle (f a) (world (run handle p w)) in
      {| value := value r; world := world r;
         trace := trace (run handle p w) ++ trace r |}
  | Raises e =>
      {| value := Raises e; world := world (run handle p w);
         trace := trace (run handle p w) |}
  end.
Proof.
  revert w. induction p as [a|e|ev k IH]; intros w; cbn [bind run].
  - cbn. destruct (run handle (f a) w); reflexivity.
  - reflexivity.
  - destruct (handle ev w) as [[x|e] w']; [|reflexivity].
    rewrite IH. unfold after. cbn [value world trace].
    destruct (value (run handle (k x) w')); reflexivity.
Qed.

Ltac run_step :=
  cbn [run bind lift];
  match goal with
  | |- context [handle ?ev ?w] =>
      let x := fresh "x" in let e := fresh "e" in let w' := fresh "w" in
      destruct (handle ev w) as [[x|e] w'] eqn:?
  end.

Ltac not_in_trace :=
  let H := fresh in
  intros H; cbn [trace value world after In] in H;
  repeat (destruct H as [H|H]; [discriminate H|]); destruct H.

(** Whenever a run of [generate_html_report] reaches the template
    renderer, the narrative request was answered, the weekday analysis
    returned, the three figures were saved, and the context is built from
    these and from the summary of [data]. *)
Lemma report_run (data : list DailyRecord) (fname : string) (w : W)
    (tpl : string) (ctx : Template.context) :
  In (RenderTemplate tpl ctx) (trace (run handle (generate_html_report data fname) w)) →
  ∃ raw max_day messages w1 w2,
    handle (ChatCompletion "gpt-4" messages 1200) w1 = (Returns raw, w2)
    ∧ max_day_of_week_negative data = Returns max_day
    ∧ saved_files (trace (run handle (generate_html_report data fname) w))
      = ["charged_vs_drained_plot.png"; "stress_level.png"; "sleep_statistics.png"]
    ∧ rendered (trace (run handle (generate_html_report data fname) w)) = [ctx]
    ∧ ctx = {| Template.graph_output_filename := "charged_vs_drained_plot.png";
               Template.stress_graph_output_filename := "stress_level.png";
               Template.sleep_graph_output_filename := "sleep_statistics.png";
               Template.advice := postprocess raw;
               Template.total_charged := total_charged data;
               Template.total_drained := total_drained data;
               Template.net_energy_level := net_energy_level data;
               Template.average_trend := average_trend data;
               Template.negative_days := length (negative_days data);
               Template.positive_days := length (positive_days data);
               Template.negative_days_array := negative_days_array data;
               Template.positive_days_array := positive_days_array data;
               Template.max_day_of_week_negative := max_day |}.
Proof.
  unfold generate_html_report, generate_energy_balance_analysis,
    save_drained_vs_charged_plot, mbind, Prog_bind, call.
  run_step; [|not_in_trace].
  destruct data as [|d data]; [not_in_trace|].
  unfold Py.getitem, Py.getlast. cbn [map lookup list_lookup].
  destruct (last _); [|not_in_trace].
  run_step; [|not_in_trace].
  destruct (max_day_of_week_negative (d :: data)) as [max_day|]; [|not_in_trace].
  do 4 (run_step; [|not_in_trace]).
  run_step; [run_step|];
    (intros H; cbn [trace value world after In] in H;
     repeat (destruct H as [H|H]; [try discriminate H|]); [|destruct H];
     injection H as <- <-; do 5 eexists; split; [eassumption|];
     split; [reflexivity|]; split; [reflexivity|]; split; reflexivity).
Qed.

(** A run that returns has handed a context to the renderer. *)
Lemma report_returns (data : list DailyRecord) (fname : string) (w : W) (u : unit) :
  value (run handle (generate_html_report data fname) w) = Returns u →
  ∃ tpl ctx,
    In (RenderTemplate tpl ctx) (trace (run handle (generate_html_report data fname) w)).
Proof.
  unfold generate_html_report, generate_energy_balance_analysis,
    save_drained_vs_charged_plot, mbind, Prog_bind, call.
  run_step; [|discriminate].
  destruct data as [|d data]; [discriminate|].
  unfold Py.getitem, Py.getlast. cbn [map lookup list_lookup].
  destruct (last _); [|discriminate].
  run_step; [|discriminate].
  destruct (max_day_of_week_negative (d :: data)) as [max_day|]; [|discriminate].
  do 6 (run_step; [|discriminate]).
  intros _. do 2 eexists. cbn [trace value world after In]. do 6 right. left. reflexivity.
Qed.

(** On the empty list the client is created and then formatting the
    prompt fails at [dates[0]]: nothing else happens. *)
Lemma report_empty (fname : string) (w : W) :
  trace (run handle (generate_html_report [] fname) w) = [OpenAIClient]
  ∧ value (run handle (generate_html_report [] fname) w)
    = match (handle OpenAIClient w).1 with
      | Returns _ => Raises IndexError
      | Raises e => Raises e
      end.
Proof.
  unfold generate_html_report, generate_energy_balance_analysis, mbind, Prog_bind, call.
  run_step; split; reflexivity.
Qed.
End RunFacts.

(** ** The summary of a window *)

Lemma sum_from (xs : list Z) (a : Z) :
  fold_left Z.add xs a = (a + fold_left Z.add xs 0)%Z.
Proof.
  revert a. induction xs as [|x xs IH]; intros a; cbn [fold_left].
  - lia.
  - rewrite IH, (IH (0 + x)%Z). lia.
Qed.

Lemma sum_cons (x : Z) (xs : list Z) : Py.sum (x :: xs) = (x + Py.sum xs)%Z.
Proof. unfold Py.sum. cbn [fold_left]. rewrite sum_from. lia. Qed.

Lemma average_trend_cases (data : list DailyRecord) :
  (average_trend data = "Net Positive" ↔ (net_energy_level data >= 0)%Z)
  ∧ (average_trend data = "Net Negative" ↔ (net_energy_level data < 0)%Z).
Proof.
  unfold average_trend. destruct (decide (net_energy_level data >= 0)%Z);
    split; split; intros H; try reflexivity; try discriminate; lia.
Qed.

(** C5: the totals are the arithmetic sums of the entries' charged and
    drained values, the net energy is the charged total minus the drained
    total, and the trend label is Net Positive exactly when the net energy is
    at least zero and Net Negative otherwise; the same holds of the summary
    in every context a run hands to the renderer. *)
Theorem net_energy_and_trend :
  (total_charged [] = 0%Z
   ∧ ∀ r data, total_charged (r :: data) = (charged r + total_charged data)%Z)
  ∧ (total_drained [] = 0%Z
     ∧ ∀ r data, total_drained (r :: data) = (drained r + total_drained data)%Z)
  ∧ (∀ data,
       net_energy_level data = (total_charged data - total_drained data)%Z
       ∧ (average_trend data = "Net Positive" ↔ (net_energy_level data >= 0)%Z)
       ∧ (average_trend data = "Net Negative" ↔ (net_energy_level data < 0)%Z))
  ∧ (∀ (W : Type) (handle : ∀ ev, W → outcome (resp ev) * W) w data fname tpl ctx,
       In (RenderTemplate tpl ctx) (trace (run handle (generate_html_report data fname) w)) →
       totalCharged (window_summary ctx) = total_charged data
       ∧ totalDrained (window_summary ctx) = total_drained data
       ∧ netEnergy (window_summary ctx)
         = (totalCharged (window_summary ctx) - totalDrained (window_summary ctx))%Z
       ∧ (trendLabel (window_summary ctx) = "Net Positive"
          ↔ (netEnergy (window_summary ctx) >= 0)%Z)
       ∧ (trendLabel (window_summary ctx) = "Net Negative"
          ↔ (netEnergy (window_summary ctx) < 0)%Z)).
Proof.
  split; [|split; [|split]].
  - split; [reflexivity|]. intros r data. unfold total_charged. cbn [map]. apply sum_cons.
  - split; [reflexivity|]. intros r data. unfold total_drained. cbn [map]. apply sum_cons.
  - intros data. split; [reflexivity|]. apply average_trend_cases.
  - intros W handle w data fname tpl ctx Hin.
    destruct (report_run handle data fname w tpl ctx Hin)
      as (raw & max_day & msgs & w1 & w2 & _ & _ & _ & _ & ->).
    cbn. repeat split; try reflexivity; apply average_trend_cases.
Qed.

(** The specification's end-to-end window: 140 charged, 120 drained, net 20,
    Net Positive. *)
Lemma net_energy_and_trend_witness :
  ∃ ctx, Sample.rendered_context Sample.window 0 = [ctx]
    ∧ totalCharged (window_summary ctx) = 140%Z
    ∧ totalDrained (window_summary ctx) = 120%Z
    ∧ netEnergy (window_summary ctx) = 20%Z
    ∧ trendLabel (window_summary ctx) = "Net Positive".
Proof.
  eexists. split; [vm_compute; reflexivity|].
  destruct net_energy_and_trend as (_ & _ & _ & H).
  edestruct (H nat Sample.handle 0%nat Sample.window Sample.report_file)
    as (Hc & Hd & Hn & Ht & _).
  - vm_compute. do 6 right. left. reflexivity.
  - rewrite Hc, Hd. repeat split; try reflexivity.
Defined.

(** ** Negative and positive days *)

Lemma length_partition (data : list DailyRecord) :
  length (negative_days data) + length (positive_days data) = length data.
Proof.
  unfold negative_days, positive_days.
  induction data as [|r data IH]; [reflexivity|].
  rewrite !filter_cons.
  destruct (decide (charged r < drained r)%Z), (decide (charged r >= drained r)%Z);
    cbn [length]; lia.
Qed.

Lemma permutation_partition (data : list DailyRecord) :
  negative_days data ++ positive_days data ≡ₚ data.
Proof.
  unfold negative_days, positive_days.
  induction data as [|r data IH]; [reflexivity|].
  rewrite !filter_cons.
  destruct (decide (charged r < drained r)%Z), (decide (charged r >= drained r)%Z);
    try lia.
  - cbn [app]. constructor. exact IH.
  - rewrite <- Permutation_middle. constructor. exact IH.
Qed.

(** C4: a record of the window is a negative day exactly when it was charged
    strictly less than drained, and a positive day exactly when charged at
    least as much (equal counts as positive); no record is both; the two
    lists together are a rearrangement of the window, so that every record
    is in exactly one of them as often as it occurs; their lengths add up to
    the length of the window; and each keeps the order of the window. *)
Theorem days_partition (data : list DailyRecord) :
  (∀ r, r ∈ negative_days data ↔ r ∈ data ∧ (charged r < drained r)%Z)
  ∧ (∀ r, r ∈ positive_days data ↔ r ∈ data ∧ (charged r >= drained r)%Z)
  ∧ (∀ r, ¬ (r ∈ negative_days data ∧ r ∈ positive_days data))
  ∧ negative_days data ++ positive_days data ≡ₚ data
  ∧ length (negative_days data) + length (positive_days data) = length data
  ∧ sublist (negative_days data) data
  ∧ sublist (positive_days data) data.
Proof.
  unfold negative_days, positive_days.
  split; [|split; [|split; [|split; [|split; [|split]]]]].
  - intros r. rewrite list_elem_of_filter. tauto.
  - intros r. rewrite list_elem_of_filter. tauto.
  - intros r [Hn Hp]. apply list_elem_of_filter in Hn, Hp. lia.
  - apply permutation_partition.
  - apply length_partition.
  - apply sublist_filter.
  - apply sublist_filter.
Qed.

(** The specification's end-to-end window: the first day is the negative
    one, the second the positive one. *)
Example partition_sample :
  negative_days Sample.window = [Sample.day "2024-01-01" 50 80]
  ∧ positive_days Sample.window = [Sample.day "2024-01-02" 90 40].
Proof. split; vm_compute; reflexivity. Qed.

(** A day charged exactly as much as drained is a positive day. *)
Example partition_equal_day :
  negative_days [Sample.day "2024-01-05" 70 70] = []
  ∧ positive_days [Sample.day "2024-01-05" 70 70] = [Sample.day "2024-01-05" 70 70].
Proof. split; vm_compute; reflexivity. Qed.

(** C10: the filter whose length is rendered as the count of negative days
    and the filter rendered as the list of negative days give the same list
    on every input, and so do the two filters for positive days; hence in
    every context handed to the renderer each count is the length of the
    list next to it. *)
Theorem counts_match_lists :
  (∀ data, negative_days data = negative_days_array data
           ∧ positive_days data = positive_days_array data)
  ∧ (∀ (W : Type) (handle : ∀ ev, W → outcome (resp ev) * W) w data fname tpl ctx,
       In (RenderTemplate tpl ctx) (trace (run handle (generate_html_report data fname) w)) →
       Template.negative_days ctx = length (Template.negative_days_array ctx)
       ∧ Template.positive_days ctx = length (Template.positive_days_array ctx)).
Proof.
  split.
  - intros data. split; reflexivity.
  - intros W handle w data fname tpl ctx Hin.
    destruct (report_run handle data fname w tpl ctx Hin)
      as (raw & max_day & msgs & w1 & w2 & _ & _ & _ & _ & ->).
    split; reflexivity.
Qed.

Lemma counts_match_lists_witness :
  ∃ ctx, Sample.rendered_context Sample.tie_window 0 = [ctx]
    ∧ Template.negative_days ctx = length (Template.negative_days_array ctx)
    ∧ Template.negative_days ctx = 2
    ∧ Template.positive_days ctx = length (Template.positive_days_array ctx)
    ∧ Template.positive_days ctx = 1.
Proof.
  eexists. split; [vm_compute; reflexivity|].
  edestruct (proj2 counts_match_lists nat Sample.handle 0%nat Sample.tie_window
               Sample.report_file) as (Hn & Hp).
  - vm_compute. do 6 right. left. reflexivity.
  - split; [exact Hn|]. split; [reflexivity|]. split; [exact Hp|reflexivity].
Defined.

(** ** Purity of the summary *)

(** C8: the summary in the rendering context depends on the window alone.
    Two runs of the report on the same window, in any two environments and
    from any two states of the world (in particular the second run started
    where the first one ended), hand the renderer contexts with the same
    WindowSummary and the same day counts. *)
Theorem summary_idempotent (W1 W2 : Type)
    (handle1 : ∀ ev, W1 → outcome (resp ev) * W1)
    (handle2 : ∀ ev, W2 → outcome (resp ev) * W2)
    (w1 : W1) (w2 : W2) (data : list DailyRecord) (fname1 fname2 : string)
    (tpl1 tpl2 : string) (ctx1 ctx2 : Template.context) :
  In (RenderTemplate tpl1 ctx1) (trace (run handle1 (generate_html_report data fname1) w1)) →
  In (RenderTemplate tpl2 ctx2) (trace (run handle2 (generate_html_report data fname2) w2)) →
  window_summary ctx1 = window_summary ctx2
  ∧ Template.negative_days ctx1 = Template.negative_days ctx2
  ∧ Template.positive_days ctx1 = Template.positive_days ctx2.
Proof.
  intros H1 H2.
  destruct (report_run handle1 data fname1 w1 tpl1 ctx1 H1)
    as (raw1 & day1 & ? & ? & ? & _ & Hd1 & _ & _ & ->).
  destruct (report_run handle2 data fname2 w2 tpl2 ctx2 H2)
    as (raw2 & day2 & ? & ? & ? & _ & Hd2 & _ & _ & ->).
  rewrite Hd1 in Hd2. injection Hd2 as <-.
  repeat split.
Qed.

(** A second report on the sample window, started in the world the first
    one left: the narrative differs, the summary does not. *)
Lemma summary_idempotent_witness :
  ∃ ctx1 ctx2,
    Sample.rendered_context Sample.window 0 = [ctx1]
    ∧ Sample.rendered_context Sample.window
        (world (run Sample.handle (generate_html_report Sample.window Sample.report_file) 0))
      = [ctx2]
    ∧ Template.advice ctx1 ≠ Template.advice ctx2
    ∧ window_summary ctx1 = window_summary ctx2
    ∧ Template.negative_days ctx1 = Template.negative_days ctx2
    ∧ Template.positive_days ctx1 = Template.positive_days ctx2.
Proof.
  do 2 eexists.
  split; [vm_compute; reflexivity|].
  split; [vm_compute; reflexivity|].
  split; [vm_compute; discriminate|].
  eapply (summary_idempotent nat nat Sample.handle Sample.handle 0%nat
            (world (run Sample.handle (generate_html_report Sample.window Sample.report_file) 0))
            Sample.window Sample.report_file Sample.report_file).
  - vm_compute. do 6 right. left. reflexivity.
  - vm_compute. do 6 right. left. reflexivity.
Defined.

(** ** The rendering context *)

(** C9: a run of the report that returns has handed a context to the
    template renderer, and every context handed over holds the two totals,
    the net energy, the trend label, the counts and the full lists of the
    negative and of the positive days, the worst weekday as the weekday
    analysis returned it, the names of the three chart files exactly as the
    charts were saved during the run (energy, stress, sleep), and the
    post-processed text of the narrative the generator answered. *)
Theorem context_complete (W : Type) (handle : ∀ ev, W → outcome (resp ev) * W)
    (w : W) (data : list DailyRecord) (fname : string) :
  (∀ u, value (run handle (generate_html_report data fname) w) = Returns u →
        ∃ tpl ctx,
          In (RenderTemplate tpl ctx) (trace (run handle (generate_html_report data fname) w)))
  ∧ (∀ tpl ctx,
       In (RenderTemplate tpl ctx) (trace (run handle (generate_html_report data fname) w)) →
       Template.total_charged ctx = total_charged data
       ∧ Template.total_drained ctx = total_drained data
       ∧ Template.net_energy_level ctx = net_energy_level data
       ∧ Template.average_trend ctx = average_trend data
       ∧ Template.negative_days ctx = length (negative_days data)
       ∧ Template.positive_days ctx = length (positive_days data)
       ∧ Template.negative_days_array ctx = negative_days data
       ∧ Template.positive_days_array ctx = positive_days data
       ∧ max_day_of_week_negative data = Returns (Template.max_day_of_week_negative ctx)
       ∧ saved_files (trace (run handle (generate_html_report data fname) w))
         = [Template.graph_output_filename ctx;
            Template.stress_graph_output_filename ctx;
            Template.sleep_graph_output_filename ctx]
       ∧ (∃ raw messages w1 w2,
            handle (ChatCompletion "gpt-4" messages 1200) w1 = (Returns raw, w2)
            ∧ Template.advice ctx = postprocess raw)).
Proof.
  split.
  - intros u. apply report_returns.
  - intros tpl ctx Hin.
    destruct (report_run handle data fname w tpl ctx Hin)
      as (raw & max_day & msgs & w1 & w2 & Hraw & Hday & Hfiles & _ & ->).
    cbn. repeat split; try assumption; try reflexivity.
    exists raw, msgs, w1, w2. split; [assumption|reflexivity].
Qed.

(** The sample window in the sample environment: the report is written and
    the context has the figures of the specification's end-to-end scenario. *)
Lemma context_complete_witness :
  ∃ tpl ctx,
    value (run Sample.handle (generate_html_report Sample.window Sample.report_file) 0)
    = Returns tt
    ∧ In (RenderTemplate tpl ctx)
         (trace (run Sample.handle (generate_html_report Sample.window Sample.report_file) 0))
    ∧ Template.total_charged ctx = 140%Z
    ∧ Template.total_drained ctx = 120%Z
    ∧ Template.net_energy_level ctx = 20%Z
    ∧ Template.average_trend ctx = "Net Positive"
    ∧ Template.negative_days ctx = 1
    ∧ Template.positive_days ctx = 1
    ∧ Template.negative_days_array ctx = [Sample.day "2024-01-01" 50 80]
    ∧ Template.positive_days_array ctx = [Sample.day "2024-01-02" 90 40]
    ∧ Template.max_day_of_week_negative ctx = "Monday"
    ∧ Template.advice ctx = "Keep a </b>steady </b>bedtime.<br>Rest more.1".
Proof.
  do 2 eexists. split; [vm_compute; reflexivity|].
  match goal with
  | |- In ?ev ?t ∧ _ =>
      assert (Hin : In ev t) by (vm_compute; do 6 right; left; reflexivity)
  end.
  split; [exact Hin|].
  destruct (proj2 (context_complete nat Sample.handle 0%nat Sample.window Sample.report_file)
              _ _ Hin)
    as (Hc & Hd & Hn & Ht & Hnd & Hpd & Hna & Hpa & Hday & _ & _).
  rewrite Hc, Hd, Hn, Ht, Hnd, Hpd, Hna, Hpa.
  repeat split; vm_compute; reflexivity.
Defined.

(** ** The empty window *)

(** C2: on the empty window the report fails.  The only external call made
    is the creation of the OpenAI client; if that raises, its exception
    ends the run, and otherwise formatting the prompt raises IndexError.  No
    figure is saved, no context reaches the renderer and no report is
    written. *)
Theorem empty_window_fails (W : Type) (handle : ∀ ev, W → outcome (resp ev) * W)
    (w : W) (fname : string) :
  is_raise (value (run handle (generate_html_report [] fname) w)) = true
  ∧ value (run handle (generate_html_report [] fname) w)
    = match (handle OpenAIClient w).1 with
      | Returns _ => Raises IndexError
      | Raises e => Raises e
      end
  ∧ trace (run handle (generate_html_report [] fname) w) = [OpenAIClient]
  ∧ rendered (trace (run handle (generate_html_report [] fname) w)) = []
  ∧ saved_files (trace (run handle (generate_html_report [] fname) w)) = [].
Proof.
  destruct (report_empty handle fname w) as [Ht Hv].
  rewrite Ht, Hv. repeat split.
  destruct (handle OpenAIClient w).1; reflexivity.
Qed.

Example empty_window_sample :
  value (run Sample.handle (generate_html_report [] Sample.report_file) 0) = Raises IndexError.
Proof. vm_compute. reflexivity. Qed.

(** ** The worst weekday *)

Lemma max_fold_in (xs : list nat) (x : nat) :
  fold_left (λ m y, if Nat.ltb m y then y else m) xs x ∈ x :: xs.
Proof.
  revert x. induction xs as [|y xs IH]; intros x; cbn [fold_left].
  - apply list_elem_of_singleton. reflexivity.
  - pose proof (IH (if Nat.ltb x y then y else x)) as H.
    destruct (Nat.ltb x y); rewrite !elem_of_cons in *; tauto.
Qed.

Lemma max_fold_ge (xs : list nat) (x z : nat) :
  z ∈ x :: xs → (z ≤ fold_left (λ m y, if Nat.ltb m y then y else m) xs x)%nat.
Proof.
  revert x z. induction xs as [|y xs IH]; intros x z Hz; cbn [fold_left].
  - apply list_elem_of_singleton in Hz. lia.
  - assert (Hx : (x ≤ fold_left (λ m y, if Nat.ltb m y then y else m) xs
                       (if Nat.ltb x y then y else x))%nat).
    { destruct (Nat.ltb_spec x y) as [Hlt|Hge].
      - etransitivity; [|apply (IH y y); left]. lia.
      - apply IH. left. }
    assert (Hy : (y ≤ fold_left (λ m y, if Nat.ltb m y then y else m) xs
                       (if Nat.ltb x y then y else x))%nat).
    { destruct (Nat.ltb_spec x y) as [Hlt|Hge].
      - apply IH. left.
      - etransitivity; [exact Hge|]. apply (IH x x). left. }
    apply elem_of_cons in Hz as [->|Hz]; [exact Hx|].
    apply elem_of_cons in Hz as [->|Hz]; [exact Hy|].
    apply IH. right. exact Hz.
Qed.

Lemma max_spec (xs : list nat) :
  xs ≠ [] → ∃ m, Py.max xs = Returns m ∧ m ∈ xs ∧ ∀ y, y ∈ xs → (y ≤ m)%nat.
Proof.
  destruct xs as [|x xs]; [congruence|]. intros _. eexists. split; [reflexivity|].
  split; [apply max_fold_in|]. intros y. apply max_fold_ge.
Qed.

Lemma index_spec (xs : list nat) (m : nat) :
  m ∈ xs →
  ∃ i, Py.index xs m = Returns i ∧ xs !! i = Some m
       ∧ ∀ j, (j < i)%nat → xs !! j ≠ Some m.
Proof.
  induction xs as [|y xs IH]; intros Hin; [inversion Hin|].
  cbn [Py.index]. destruct (Nat.eqb_spec y m) as [->|Hne].
  - exists 0. repeat split. intros j Hj. lia.
  - apply elem_of_cons in Hin as [->|Hin]; [congruence|].
    destruct (IH Hin) as (i & Hi & Hm & Hfirst). exists (S i). rewrite Hi.
    repeat split; [exact Hm|].
    intros [|j] Hj; cbn; [congruence|]. apply Hfirst. lia.
Qed.

Lemma counts_lookup (days : list nat) (j : nat) :
  (j < 7)%nat → day_of_week_counts days !! j = Some (Py.count days j).
Proof.
  intros Hj. unfold day_of_week_counts.
  rewrite list_lookup_fmap, lookup_seq_lt by exact Hj. reflexivity.
Qed.

Lemma counts_length (days : list nat) : length (day_of_week_counts days) = 7.
Proof. reflexivity. Qed.



Example worst_weekday_none :
  max_day_of_week_negative [Sample.day "2024-01-02" 90 40] = Returns "N/A".
Proof. vm_compute. reflexivity. Qed.

(** The names are pairwise different, so the name determines the weekday. *)
Lemma day_name_NoDup : NoDup Datetime.day_name.
Proof. apply (bool_decide_unpack _). vm_compute. exact I. Qed.

(** ** Post-processing of the narrative *)

Lemma prefix_newline (c : ascii) (s : string) :
  String.prefix Py.nl (String c s) = bool_decide (c = "010"%char).
Proof.
  unfold Py.nl. cbn [String.prefix].
  destruct (ascii_dec "010" c) as [<-|Hne].
  - rewrite bool_decide_eq_true_2 by reflexivity. destruct s; reflexivity.
  - rewrite bool_decide_eq_false_2 by congruence. reflexivity.
Qed.

(** The first replacement is exactly the line-break rule. *)
Lemma replace_newlines (s : string) :
  Py.str_replace s Py.nl "<br>" = line_breaks s.
Proof.
  change (Py.str_replace s Py.nl "<br>") with (Py.replace_from Py.nl "<br>" 0 s).
  induction s as [|c s IH]; [reflexivity|].
  cbn [Py.replace_from line_breaks]. rewrite prefix_newline.
  change (String.length Py.nl - 1) with 0. rewrite IH. reflexivity.
Qed.

Lemma append_cons (c : ascii) (s t : string) : String c s +:+ t = String c (s +:+ t).
Proof. reflexivity. Qed.

Lemma append_empty (t : string) : "" +:+ t = t.
Proof. reflexivity. Qed.

Lemma has_char_app (c : ascii) (s t : string) :
  has_char c (s +:+ t) = has_char c s || has_char c t.
Proof.
  induction s as [|c' s IH]; [reflexivity|].
  rewrite append_cons. cbn [has_char]. rewrite IH. apply orb_assoc.
Qed.

Lemma line_breaks_no_newline (s : string) : has_char "010" (line_breaks s) = false.
Proof.
  induction s as [|c s IH]; [reflexivity|]. cbn [line_breaks].
  destruct (bool_decide (c = "010"%char)) eqn:Hc.
  - rewrite has_char_app, IH. reflexivity.
  - cbn [has_char]. rewrite Hc, IH. reflexivity.
Qed.

(** A replacement only copies characters of the text or emits the new
    token. *)
Lemma replace_from_chars (c : ascii) (old new : string) (skip : nat) (s : string) :
  has_char c s = false → has_char c new = false →
  has_char c (Py.replace_from old new skip s) = false.
Proof.
  intros Hs Hnew. revert skip Hs.
  induction s as [|c' s IH]; intros skip Hs; [reflexivity|].
  cbn [has_char] in Hs. apply orb_false_iff in Hs as [Hc Hs].
  cbn [Py.replace_from]. destruct skip as [|n]; [|apply IH, Hs].
  destruct (String.prefix old (String c' s)).
  - rewrite has_char_app, Hnew, IH by exact Hs. reflexivity.
  - cbn [has_char]. rewrite Hc, IH by exact Hs. reflexivity.
Qed.

(** What a replacement of the delimiter by the closing marker starts with,
    when it is not the marker: the first character of the text, followed by
    the replacement of the rest. *)
Lemma replace_bold_head (s : string) (c : ascii) (t : string) :
  Py.replace_from "** " "</b>" 0 s = String c t → c ≠ "<"%char →
  ∃ s', s = String c s' ∧ t = Py.replace_from "** " "</b>" 0 s'.
Proof.
  destruct s as [|a s]; [discriminate|]. cbn [Py.replace_from].
  destruct (String.prefix "** " (String a s)).
  - rewrite !append_cons. intros H Hne. injection H as H _. congruence.
  - intros H _. injection H as -> <-. eauto.
Qed.

Lemma prefix_bold_inv (s : string) :
  String.prefix "** " s = true → ∃ t, s = String "*" (String "*" (String " " t)).
Proof.
  destruct s as [|a [|b [|c t]]]; cbn [String.prefix];
    repeat match goal with
           | |- context [ascii_dec ?x ?y] => destruct (ascii_dec x y) as [<-|]
           end;
    try discriminate.
  eauto.
Qed.

(** After the delimiter has been replaced by the closing marker no
    occurrence of the delimiter is left. *)
Lemma replace_bold_none (skip : nat) (s : string) :
  has_bold (Py.replace_from "** " "</b>" skip s) = false.
Proof.
  revert skip. induction s as [|a s IH]; intros skip; [reflexivity|].
  cbn [Py.replace_from]. destruct skip as [|n]; [|apply IH].
  destruct (String.prefix "** " (String a s)) eqn:Hp.
  - change (String.length "** " - 1) with 2.
    rewrite !append_cons, append_empty. cbn [has_bold String.prefix].
    destruct (ascii_dec "*" "<") as [Heq|_]; [discriminate Heq|].
    destruct (ascii_dec "*" "/") as [Heq|_]; [discriminate Heq|].
    destruct (ascii_dec "*" "b") as [Heq|_]; [discriminate Heq|].
    destruct (ascii_dec "*" ">") as [Heq|_]; [discriminate Heq|].
    cbn [orb]. apply IH.
  - cbn [has_bold]. rewrite IH, orb_false_r.
    destruct (String.prefix "** " (String a (Py.replace_from "** " "</b>" 0 s))) eqn:Hq;
      [|reflexivity].
    apply prefix_bold_inv in Hq as [t Hq]. injection Hq as -> Hq.
    apply replace_bold_head in Hq as (s1 & -> & Hq); [|discriminate].
    symmetry in Hq. apply replace_bold_head in Hq as (s2 & -> & _); [|discriminate].
    destruct s2; cbn in Hp; discriminate Hp.
Qed.

(** Replacing in a text without the delimiter changes nothing. *)
Lemma replace_bold_absent (new s : string) :
  has_bold s = false → Py.replace_from "** " new 0 s = s.
Proof.
  induction s as [|a s IH]; [reflexivity|].
  cbn [has_bold]. intros H. apply orb_false_iff in H as [Hp Hs].
  cbn [Py.replace_from]. rewrite Hp, IH by exact Hs. reflexivity.
Qed.

(** The third replacement of [postprocess] never finds anything to
    replace: whatever the text, the result is that of the first two, it has
    no newline, and every occurrence of the delimiter became a closing
    marker. *)
Lemma postprocess_closing_only (advice : string) :
  postprocess advice = Py.str_replace (line_breaks advice) "** " "</b>"
  ∧ has_char "010" (postprocess advice) = false
  ∧ has_bold (postprocess advice) = false.
Proof.
  unfold postprocess. rewrite replace_newlines.
  change (Py.str_replace ?s "** " ?new) with (Py.replace_from "** " new 0 s).
  rewrite (replace_bold_absent "<b>") by apply replace_bold_none.
  split; [reflexivity|]. split; [|apply replace_bold_none].
  apply replace_from_chars; [apply line_breaks_no_newline|reflexivity].
Qed.

(** C1 (the code does otherwise): on a text with two occurrences of the
    delimiter the post-processing turns its newline into the line-break
    markup, as claimed, but maps both occurrences to the closing marker,
    where the alternating rule opens at the first and closes at the second. *)
Theorem postprocess_pairs_wrongly :
  postprocess Sample.generated_text = "Keep a </b>steady </b>bedtime.<br>Rest more."
  ∧ postprocess_paired Sample.generated_text = "Keep a <b>steady </b>bedtime.<br>Rest more."
  ∧ postprocess Sample.generated_text ≠ postprocess_paired Sample.generated_text.
Proof.
  split; [vm_compute; reflexivity|]. split; [vm_compute; reflexivity|].
  vm_compute. discriminate.
Qed.

(** ** The aggregation *)

Lemma subscript_field (j : json) (k : string) (v : json) :
  subscript j k = Returns v ↔ field j [k] = Some v.
Proof.
  unfold subscript. cbn [field].
  destruct j as [| | | | |m]; try (split; discriminate).
  destruct (m !! k) as [x|]; cbn; split; congruence.
Qed.

Lemma subscript2_field (j : json) (k1 k2 : string) (v : json) :
  subscript2 j k1 k2 = Returns v ↔ field j [k1; k2] = Some v.
Proof.
  unfold subscript2, subscript. cbn [field].
  destruct j as [| | | | |m]; try (split; discriminate).
  destruct (m !! k1) as [d|]; cbn; [|split; discriminate].
  destruct d as [| | | | |m']; try (split; discriminate).
  destruct (m' !! k2) as [x|]; cbn; split; congruence.
Qed.

Lemma subscript_missing (j : json) (k : string) :
  field j [k] = None → ∃ e, subscript j k = Raises e.
Proof.
  intros H. destruct (subscript j k) as [v|e] eqn:Hs; [|eauto].
  apply subscript_field in Hs. congruence.
Qed.

Lemma subscript2_missing (j : json) (k1 k2 : string) :
  field j [k1; k2] = None → ∃ e, subscript2 j k1 k2 = Raises e.
Proof.
  intros H. destruct (subscript2 j k1 k2) as [v|e] eqn:Hs; [|eauto].
  apply subscript2_field in Hs. congruence.
Qed.

Lemma outcome_bind_returns {A B} (r : outcome A) (g : A → outcome B) (b : B) :
  r ≫= g = Returns b → ∃ a, r = Returns a ∧ g a = Returns b.
Proof. destruct r as [a|e]; [eauto|discriminate]. Qed.

(** [extract_values] returns one entry per structure, with the three
    values found under the required fields. *)
Lemma extract_values_returns (json_data : list json) (bb : list battery_entry) :
  extract_values json_data = Returns bb →
  Forall2 (λ j b, field j ["date"] = Some (bb_date b)
                  ∧ field j ["charged"] = Some (bb_charged b)
                  ∧ field j ["drained"] = Some (bb_drained b)) json_data bb.
Proof.
  unfold extract_values. revert bb.
  induction json_data as [|j json_data IH]; intros bb; cbn [mapM].
  - intros [= <-]. constructor.
  - intros H.
    apply outcome_bind_returns in H as (b & Hb & H).
    apply outcome_bind_returns in H as (bs & Hbs & [= <-]).
    apply outcome_bind_returns in Hb as (d & Hd & Hb).
    apply outcome_bind_returns in Hb as (c & Hc & Hb).
    apply outcome_bind_returns in Hb as (r & Hr & [= <-]).
    constructor; [|apply IH, Hbs].
    cbn [bb_date bb_charged bb_drained].
    repeat split; apply subscript_field; assumption.
Qed.

(** A structure without a required field makes [extract_values] raise. *)
Lemma extract_values_missing (json_data : list json) (entry : json) (k : string) :
  entry ∈ json_data → k ∈ required_battery → field entry [k] = None →
  is_raise (extract_values json_data) = true.
Proof.
  intros Hin Hk Hnone.
  destruct (extract_values json_data) as [bb|e] eqn:Hx; [exfalso|reflexivity].
  apply extract_values_returns in Hx.
  induction Hx as [|j b js bs (Hd & Hc & Hr) _ IH]; [inversion Hin|].
  apply elem_of_cons in Hin as [->|Hin]; [|exact (IH Hin)].
  unfold required_battery in Hk.
  repeat (apply elem_of_cons in Hk as [->|Hk]; [congruence|]).
  inversion Hk.
Qed.

Section AggregationFacts.
Context {W : Type}.
Variable handle : forall ev : ext, W -> outcome (resp ev) * W.

Lemma run_lift_bind {A B} (r : outcome A) (f : A → Prog B) (w : W) :
  run handle (bind (lift r) f) w =
  match r with
  | Returns a => run handle (f a) w
  | Raises e => {| value := Raises e; world := w; trace := [] |}
  end.
Proof. destruct r; reflexivity. Qed.

Ltac lift_step :=
  rewrite run_lift_bind;
  match goal with
  | |- context [match ?r with Returns _ => _ | Raises _ => _ end] =>
      destruct r eqn:?
  end.

Ltac call_step :=
  cbn [run bind];
  match goal with
  | |- context [handle ?ev ?w] =>
      let x := fresh "x" in let e := fresh "e" in let w' := fresh "w" in
      destruct (handle ev w) as [[x|e] w'] eqn:?
  end.

(** An entry the loop body returns is built from the provider's answers. *)
Lemma new_entry_returns (entry : battery_entry) (w : W) (e : combined_entry) :
  value (run handle (new_entry entry) w) = Returns e →
  ce_date e = bb_date entry ∧ ce_charged e = bb_charged entry
  ∧ ce_drained e = bb_drained entry ∧ from_answers handle e.
Proof.
  unfold new_entry, mbind, Prog_bind, call.
  call_step; [|discriminate]. cbn [value after].
  do 7 (lift_step; [|discriminate]).
  call_step; [|discriminate]. cbn [value after].
  do 2 (lift_step; [|discriminate]).
  cbn [run value]. intros [= <-]. cbn [ce_date ce_charged ce_drained].
  split; [reflexivity|]. split; [reflexivity|]. split; [reflexivity|].
  apply outcome_bind_returns in Heqo4 as (feedback & Hf & Hfe).
  apply outcome_bind_returns in Heqo5 as (insight & Hi & Hie).
  exists w, x, w0, x0, w1, feedback, insight.
  cbn [ce_date ce_sleep_seconds ce_deep_sleep_seconds ce_light_sleep_seconds
       ce_rem_sleep_seconds ce_awake_sleep_seconds ce_sleep_feedback ce_sleep_insight
       ce_avg_stress_level ce_max_stress_level].
  repeat apply conj; try assumption;
    try (apply subscript2_field; assumption);
    apply subscript_field; assumption.
Qed.

Ltac lift_steps :=
  repeat (rewrite run_lift_bind; cbn [mbind outcome_bind];
          try match goal with
              | |- context [match ?r with Returns _ => _ | Raises _ => _ end] =>
                  destruct r eqn:?
              end).

(** A sleep answer without a required field: the loop body raises right
    after the sleep call, before the stress call. *)
Lemma new_entry_missing_sleep (entry : battery_entry) (w w1 : W) (sleep : json)
    (k : string) :
  handle (GetSleepData (bb_date entry)) w = (Returns sleep, w1) →
  k ∈ required_sleep →
  field sleep ["dailySleepDTO"; k] = None →
  is_raise (value (run handle (new_entry entry) w)) = true
  ∧ trace (run handle (new_entry entry) w) = [GetSleepData (bb_date entry)].
Proof.
  intros Hsleep Hk Hnone. apply subscript2_missing in Hnone as [e0 Hr].
  unfold new_entry, mbind, Prog_bind, call. cbn [run bind]. rewrite Hsleep.
  unfold required_sleep in Hk.
  repeat (apply elem_of_cons in Hk as [->|Hk]); [..|inversion Hk];
    rewrite Hr; lift_steps; split; reflexivity.
Qed.

(** A stress answer without a required field: the loop body raises. *)
Lemma new_entry_missing_stress (entry : battery_entry) (w w1 w2 : W)
    (sleep stress : json) (k : string) :
  handle (GetSleepData (bb_date entry)) w = (Returns sleep, w1) →
  handle (GetStressData (bb_date entry)) w1 = (Returns stress, w2) →
  k ∈ required_stress →
  field stress [k] = None →
  is_raise (value (run handle (new_entry entry) w)) = true.
Proof.
  intros Hsleep Hstress Hk Hnone. apply subscript_missing in Hnone as [e0 Hr].
  unfold new_entry, mbind, Prog_bind, call. cbn [run bind]. rewrite Hsleep.
  do 7 (lift_step; [|reflexivity]).
  cbn [run bind]. rewrite Hstress.
  unfold required_stress in Hk.
  repeat (apply elem_of_cons in Hk as [->|Hk]); [..|inversion Hk];
    rewrite Hr; lift_steps; reflexivity.
Qed.

(** An exception of the loop body ends the loop: the entries after it are
    not visited. *)
Lemma aggregation_loop_raises (entry : battery_entry) (rest : list battery_entry)
    (acc : list combined_entry) (w : W) (e : exn) :
  value (run handle (new_entry entry) w) = Raises e →
  value (run handle (aggregation_loop (entry :: rest) acc) w) = Raises e
  ∧ trace (run handle (aggregation_loop (entry :: rest) acc) w)
    = trace (run handle (new_entry entry) w).
Proof.
  intros He.
  change (aggregation_loop (entry :: rest) acc)
    with (bind (new_entry entry) (λ x, aggregation_loop rest (acc ++ [x]))).
  rewrite run_bind, He. split; reflexivity.
Qed.

(** The same at any position: when the entries before [entry] were
    aggregated and the loop body raises on [entry] in the world they left,
    the loop raises with that exception; it does not go on to [rest]. *)
Lemma aggregation_loop_propagates (pre : list battery_entry) (entry : battery_entry)
    (rest : list battery_entry) (acc mid : list combined_entry) (w : W) (e : exn) :
  value (run handle (aggregation_loop pre acc) w) = Returns mid →
  value (run handle (new_entry entry) (world (run handle (aggregation_loop pre acc) w)))
  = Raises e →
  value (run handle (aggregation_loop (pre ++ entry :: rest) acc) w) = Raises e.
Proof.
  revert acc w. induction pre as [|p pre IH]; intros acc w.
  - intros _ He. apply aggregation_loop_raises. exact He.
  - change (aggregation_loop (p :: pre) acc)
      with (bind (new_entry p) (λ x, aggregation_loop pre (acc ++ [x]))).
    change (aggregation_loop ((p :: pre) ++ entry :: rest) acc)
      with (bind (new_entry p)
              (λ x, aggregation_loop (pre ++ entry :: rest) (acc ++ [x]))).
    rewrite !run_bind.
    destruct (value (run handle (new_entry p) w)) as [x|]; [|discriminate].
    cbn [value world]. apply IH.
Qed.

(** A loop that returns has appended one entry per body-battery entry, in
    order, each built from the provider's answers. *)
Lemma aggregation_loop_returns (bb : list battery_entry) (acc : list combined_entry)
    (w : W) (out : list combined_entry) :
  value (run handle (aggregation_loop bb acc) w) = Returns out →
  ∃ news, out = (acc ++ news)%list
    ∧ Forall2 (λ entry e, ce_date e = bb_date entry ∧ ce_charged e = bb_charged entry
                          ∧ ce_drained e = bb_drained entry ∧ from_answers handle e)
              bb news.
Proof.
  revert acc w. induction bb as [|entry rest IH]; intros acc w.
  - intros [= <-]. exists []. split; [symmetry; apply app_nil_r|constructor].
  - change (aggregation_loop (entry :: rest) acc)
      with (bind (new_entry entry) (λ x, aggregation_loop rest (acc ++ [x]))).
    rewrite run_bind.
    destruct (value (run handle (new_entry entry) w)) as [e|] eqn:He; [|discriminate].
    cbn [value]. intros H. apply IH in H as (news & -> & HF).
    exists (e :: news). split; [rewrite <- app_assoc; reflexivity|].
    constructor; [exact (new_entry_returns entry w e He)|exact HF].
Qed.

(** The whole aggregation: a run that returns has one entry for every
    structure of the body-battery answer, in order, each holding values
    the provider sent under the required fields. *)
Lemma combined_data_array_returns (body_battery : list json) (w : W)
    (out : list combined_entry) :
  value (run handle (combined_data_array body_battery) w) = Returns out →
  Forall2 (aggregated handle) body_battery out.
Proof.
  unfold combined_data_array, mbind, Prog_bind. rewrite run_lift_bind.
  destruct (extract_values body_battery) as [bb|] eqn:Hx; [|discriminate].
  intros H. apply aggregation_loop_returns in H as (news & -> & HF).
  apply extract_values_returns in Hx. cbn [app].
  revert news HF. induction Hx as [|j b js bs (Hd & Hc & Hr) _ IH]; intros news HF.
  - inversion HF. constructor.
  - inversion HF as [|? e ? es (Ed & Ec & Er & Ha) HF']; subst.
    constructor; [|exact (IH es HF')].
    unfold aggregated. rewrite Ed, Ec, Er. auto.
Qed.

(** A body-battery answer with a structure that lacks a required field:
    the aggregation raises before any call to the provider. *)
Lemma combined_data_array_missing (body_battery : list json) (w : W)
    (entry : json) (k : string) :
  entry ∈ body_battery → k ∈ required_battery → field entry [k] = None →
  is_raise (value (run handle (combined_data_array body_battery) w)) = true
  ∧ trace (run handle (combined_data_array body_battery) w) = [].
Proof.
  intros Hin Hk Hnone.
  pose proof (extract_values_missing body_battery entry k Hin Hk Hnone) as Hx.
  unfold combined_data_array, mbind, Prog_bind. rewrite run_lift_bind.
  destruct (extract_values body_battery); [discriminate Hx|]. split; reflexivity.
Qed.
End AggregationFacts.

(** C7: a missing required field is an error that ends the aggregation.
    When a structure of the body-battery answer lacks its date, charged or
    drained field, when the sleep answer for a date lacks the nested
    structure or one of its five durations or two codes, or when the stress
    answer lacks its average or maximum, building the entry raises; an
    exception of the loop body at any date ends the loop with that
    exception, the date is not skipped; and a run that returns has exactly
    one entry per date, in order, every value of which the provider sent
    under the required field (the two codes passed through the lookup
    tables): nothing is filled in. *)
Theorem missing_field_is_fatal (W : Type) (handle : ∀ ev, W → outcome (resp ev) * W) :
  (∀ body_battery w entry k,
     entry ∈ body_battery → k ∈ required_battery → field entry [k] = None →
     is_raise (value (run handle (combined_data_array body_battery) w)) = true)
  ∧ (∀ entry w w1 sleep k,
       handle (GetSleepData (bb_date entry)) w = (Returns sleep, w1) →
       k ∈ required_sleep →
       field sleep ["dailySleepDTO"; k] = None →
       is_raise (value (run handle (new_entry entry) w)) = true)
  ∧ (∀ entry w w1 w2 sleep stress k,
       handle (GetSleepData (bb_date entry)) w = (Returns sleep, w1) →
       handle (GetStressData (bb_date entry)) w1 = (Returns stress, w2) →
       k ∈ required_stress →
       field stress [k] = None →
       is_raise (value (run handle (new_entry entry) w)) = true)
  ∧ (∀ pre entry rest acc mid w e,
       value (run handle (aggregation_loop pre acc) w) = Returns mid →
       value (run handle (new_entry entry)
                (world (run handle (aggregation_loop pre acc) w))) = Raises e →
       value (run handle (aggregation_loop (pre ++ entry :: rest) acc) w) = Raises e)
  ∧ (∀ body_battery w out,
       value (run handle (combined_data_array body_battery) w) = Returns out →
       Forall2 (aggregated handle) body_battery out).
Proof.
  split; [|split; [|split; [|split]]].
  - intros body_battery w entry k Hin Hk Hnone.
    apply (combined_data_array_missing handle body_battery w entry k Hin Hk Hnone).
  - intros entry w w1 sleep k Hsleep Hk Hnone.
    apply (new_entry_missing_sleep handle entry w w1 sleep k Hsleep Hk Hnone).
  - apply (new_entry_missing_stress handle).
  - apply (aggregation_loop_propagates handle).
  - apply (combined_data_array_returns handle).
Qed.

(** A provider whose sleep answers lack the deep-sleep duration: the first
    date already fails, with the KeyError of the missing key. *)
Lemma missing_field_is_fatal_witness :
  field Sample.sleep_answer_incomplete ["dailySleepDTO"; "deepSleepSeconds"] = None
  ∧ is_raise (value (run Sample.handle_incomplete
                       (new_entry {| bb_date := JStr "2024-01-01";
                                     bb_charged := JNum 50;
                                     bb_drained := JNum 80 |}) 0)) = true
  ∧ value (run Sample.handle_incomplete
             (combined_data_array [Sample.battery_answer "2024-01-01" 50 80;
                                   Sample.battery_answer "2024-01-02" 90 40]) 0)
    = Raises (KeyError "deepSleepSeconds").
Proof.
  split; [vm_compute; reflexivity|]. split; [|vm_compute; reflexivity].
  apply (proj1 (proj2 (missing_field_is_fatal nat Sample.handle_incomplete))
           _ 0%nat 1%nat Sample.sleep_answer_incomplete "deepSleepSeconds").
  - reflexivity.
  - apply (bool_decide_unpack _). vm_compute. exact I.
  - vm_compute. reflexivity.
Defined.

(** With complete answers the two dates of the sample give two entries, the
    unknown insight code passed through unchanged. *)
Example aggregation_sample :
  ∃ e1 e2,
    value (run Sample.handle
             (combined_data_array [Sample.battery_answer "2024-01-01" 50 80;
                                   Sample.battery_answer "2024-01-02" 90 40]) 0)
    = Returns [e1; e2]
    ∧ ce_date e1 = JStr "2024-01-01" ∧ ce_charged e1 = JNum 50 ∧ ce_drained e1 = JNum 80
    ∧ ce_deep_sleep_seconds e1 = JNum 5400
    ∧ ce_sleep_feedback e1 = JStr (get_sleep_feedback_explanation "POSITIVE_DEEP")
    ∧ ce_sleep_insight e1 = JStr "SOME_NEW_CODE"
    ∧ ce_max_stress_level e2 = JNum 92.
Proof. do 2 eexists. split; [vm_compute; reflexivity|]. repeat split. Qed.

(** * Further properties *)

(** ** The order of the report's effects *)

Section ReportEffects.
Context {W : Type}.
Variable handle : forall ev : ext, W -> outcome (resp ev) * W.

Ltac report_step :=
  cbn [run bind lift];
  match goal with
  | |- context [handle ?ev ?w] =>
      let x := fresh "x" in let e := fresh "e" in let w' := fresh "w" in
      destruct (handle ev w) as [[x|e] w'] eqn:?
  end.

Ltac unfold_report :=
  unfold generate_html_report, generate_energy_balance_analysis,
    save_drained_vs_charged_plot, mbind, Prog_bind, call.

Ltac stages_done :=
  cbn [trace value world after map stage_of];
  split; [eexists; reflexivity | try discriminate; try (intros _; reflexivity)].

Lemma report_stages_prefix (data : list DailyRecord) (fname : string) (w : W) :
  map stage_of (trace (run handle (generate_html_report data fname) w))
    `prefix_of` report_stages
  ∧ (is_raise (value (run handle (generate_html_report data fname) w)) = false →
     map stage_of (trace (run handle (generate_html_report data fname) w))
     = report_stages).
Proof.
  unfold_report.
  report_step; [|stages_done].
  destruct data as [|d data]; [stages_done|].
  unfold Py.getitem, Py.getlast. cbn [map lookup list_lookup].
  destruct (last _); [|stages_done].
  report_step; [|stages_done].
  destruct (max_day_of_week_negative (d :: data)) as [max_day|]; [|stages_done].
  do 6 (report_step; [|stages_done]).
  stages_done.
Qed.

Ltac in_trace H :=
  cbn [trace value world after In] in H;
  repeat (destruct H as [H|H]; [try discriminate H|]); [|destruct H].

Ltac no_event :=
  let H := fresh in
  intros H; cbn [trace value world after In] in H;
  repeat (destruct H as [H|H]; [discriminate H|]); destruct H.

(** The report file, when it is written, has the given name and holds
    what the renderer returned; writing it is the last thing a run does,
    after the three figures were saved. *)
Lemma report_written (data : list DailyRecord) (fname : string) (w : W)
    (name text : string) :
  In (WriteFile name text) (trace (run handle (generate_html_report data fname) w)) →
  name = fname
  ∧ (∃ tpl ctx w1 w2, handle (RenderTemplate tpl ctx) w1 = (Returns text, w2))
  ∧ last (trace (run handle (generate_html_report data fname) w))
    = Some (WriteFile name text)
  ∧ saved_files (trace (run handle (generate_html_report data fname) w))
    = ["charged_vs_drained_plot.png"; "stress_level.png"; "sleep_statistics.png"].
Proof.
  unfold_report.
  report_step; [|no_event].
  destruct data as [|d data]; [no_event|].
  unfold Py.getitem, Py.getlast. cbn [map lookup list_lookup].
  destruct (last _); [|no_event].
  report_step; [|no_event].
  destruct (max_day_of_week_negative (d :: data)) as [max_day|]; [|no_event].
  do 5 (report_step; [|no_event]).
  report_step;
    (intros H; in_trace H; injection H as <- <-;
     split; [reflexivity|]; split; [do 4 eexists; eassumption|];
     split; reflexivity).
Qed.

(** Whenever the template file is opened, the three figures have been
    saved already. *)
Lemma template_after_figures (data : list DailyRecord) (fname : string) (w : W)
    (name : string) :
  In (ReadFile name) (trace (run handle (generate_html_report data fname) w)) →
  name = "energy_report_template.html"
  ∧ saved_files (trace (run handle (generate_html_report data fname) w))
    = ["charged_vs_drained_plot.png"; "stress_level.png"; "sleep_statistics.png"].
Proof.
  unfold_report.
  report_step; [|no_event].
  destruct data as [|d data]; [no_event|].
  unfold Py.getitem, Py.getlast. cbn [map lookup list_lookup].
  destruct (last _); [|no_event].
  report_step; [|no_event].
  destruct (max_day_of_week_negative (d :: data)) as [max_day|]; [|no_event].
  do 3 (report_step; [|no_event]).
  report_step; [report_step; [report_step|]|];
    (intros H; in_trace H; injection H as <-; split; reflexivity).
Qed.

(** When the template cannot be read the run ends with that exception, the
    figures stay saved and nothing is rendered or written. *)
Lemma template_missing (data : list DailyRecord) (fname : string) (w : W) (e : exn) :
  (∀ name w1, ∃ w2, handle (ReadFile name) w1 = (Raises e, w2)) →
  is_raise (value (run handle (generate_html_report data fname) w)) = true
  ∧ rendered (trace (run handle (generate_html_report data fname) w)) = []
  ∧ (∀ name text,
       ¬ In (WriteFile name text) (trace (run handle (generate_html_report data fname) w)))
  ∧ (In (ReadFile "energy_report_template.html")
        (trace (run handle (generate_html_report data fname) w)) →
     value (run handle (generate_html_report data fname) w) = Raises e
     ∧ saved_files (trace (run handle (generate_html_report data fname) w))
       = ["charged_vs_drained_plot.png"; "stress_level.png"; "sleep_statistics.png"]).
Proof.
  intros Hread. unfold_report.
  report_step;
    [|split; [reflexivity|split; [reflexivity|split; [intros ? ?; no_event|no_event]]]].
  destruct data as [|d data];
    [split; [reflexivity|split; [reflexivity|split; [intros ? ?; no_event|no_event]]]|].
  unfold Py.getitem, Py.getlast. cbn [map lookup list_lookup].
  destruct (last _);
    [|split; [reflexivity|split; [reflexivity|split; [intros ? ?; no_event|no_event]]]].
  report_step;
    [|split; [reflexivity|split; [reflexivity|split; [intros ? ?; no_event|no_event]]]].
  destruct (max_day_of_week_negative (d :: data)) as [max_day|];
    [|split; [reflexivity|split; [reflexivity|split; [intros ? ?; no_event|no_event]]]].
  do 3 (report_step;
    [|split; [reflexivity|split; [reflexivity|split; [intros ? ?; no_event|no_event]]]]).
  cbn [run bind lift].
  destruct (Hread "energy_report_template.html" w4) as [w' Hw']. rewrite Hw'.
  split; [reflexivity|]. split; [reflexivity|].
  split; [intros ? ?; no_event|]. intros _. split; reflexivity.
Qed.

(** When the narrative generator raises, the run ends with its exception
    right there. *)
Lemma narrative_failure (data : list DailyRecord) (fname : string) (w w1 : W)
    (x : unit) (e : exn) :
  data ≠ [] →
  handle OpenAIClient w = (Returns x, w1) →
  (∀ messages, ∃ w2, handle (ChatCompletion "gpt-4" messages 1200) w1 = (Raises e, w2)) →
  value (run handle (generate_html_report data fname) w) = Raises e
  ∧ map stage_of (trace (run handle (generate_html_report data fname) w))
    = [ClientCreated; NarrativeRequested].
Proof.
  intros Hdata Hclient Hchat. unfold_report.
  cbn [run bind lift]. rewrite Hclient.
  destruct data as [|d data]; [congruence|].
  unfold Py.getitem, Py.getlast. cbn [map lookup list_lookup].
  destruct (last _) eqn:Hlast;
    [|apply last_None in Hlast; discriminate Hlast].
  cbn [run bind lift].
  match goal with
  | |- context [handle (ChatCompletion ?m ?msgs ?n) w1] =>
      destruct (Hchat msgs) as [w2 Hw2]; rewrite Hw2
  end.
  split; reflexivity.
Qed.

(** When the weekday analysis raises, no figure is saved and nothing is
    rendered; if the narrative was answered, the run ends with the
    exception of the analysis, after the request and before the charts. *)
Lemma weekday_failure (data : list DailyRecord) (fname : string) (w : W) (e : exn) :
  max_day_of_week_negative data = Raises e →
  is_raise (value (run handle (generate_html_report data fname) w)) = true
  ∧ saved_files (trace (run handle (generate_html_report data fname) w)) = []
  ∧ rendered (trace (run handle (generate_html_report data fname) w)) = []
  ∧ (∀ x w1,
       handle OpenAIClient w = (Returns x, w1) →
       (∀ messages, ∃ raw w2,
          handle (ChatCompletion "gpt-4" messages 1200) w1 = (Returns raw, w2)) →
       value (run handle (generate_html_report data fname) w) = Raises e
       ∧ map stage_of (trace (run handle (generate_html_report data fname) w))
         = [ClientCreated; NarrativeRequested]).
Proof.
  intros Hday. unfold_report.
  report_step;
    [|split; [reflexivity|split; [reflexivity|split; [reflexivity|]]];
      intros ? ? [=]].
  destruct data as [|d data]; [discriminate Hday|].
  unfold Py.getitem, Py.getlast. cbn [map lookup list_lookup].
  destruct (last _) eqn:Hlast;
    [|apply last_None in Hlast; discriminate Hlast].
  report_step; rewrite ?Hday; cbn [run bind lift].
  - split; [reflexivity|split; [reflexivity|split; [reflexivity|]]].
    intros ? ? _ _. split; reflexivity.
  - split; [reflexivity|split; [reflexivity|split; [reflexivity|]]].
    intros y v [= <- <-] Hchat.
    match goal with
    | H : handle (ChatCompletion _ ?msgs _) _ = (Raises _, _) |- _ =>
        destruct (Hchat msgs) as (raw & w2 & Hw2); rewrite Hw2 in H; discriminate H
    end.
Qed.

End ReportEffects.

(** X1: the external effects of a report happen in one fixed order, each
    at most once: client, narrative request, three figures, template,
    rendering, report file.  The stages of every run are a prefix of that
    sequence, and the whole sequence when the run returns. *)
Theorem report_effects_in_order (W : Type) (handle : ∀ ev, W → outcome (resp ev) * W)
    (w : W) (data : list DailyRecord) (fname : string) :
  map stage_of (trace (run handle (generate_html_report data fname) w))
    `prefix_of` report_stages
  ∧ (is_raise (value (run handle (generate_html_report data fname) w)) = false →
     map stage_of (trace (run handle (generate_html_report data fname) w))
     = report_stages).
Proof. apply report_stages_prefix. Qed.

(** X2: a report file is written only under the name asked for, with the
    text the template renderer returned, as the last effect of the run and
    after the three figures were saved. *)
Theorem report_file_is_rendering (W : Type) (handle : ∀ ev, W → outcome (resp ev) * W)
    (w : W) (data : list DailyRecord) (fname name text : string) :
  In (WriteFile name text) (trace (run handle (generate_html_report data fname) w)) →
  name = fname
  ∧ (∃ tpl ctx w1 w2, handle (RenderTemplate tpl ctx) w1 = (Returns text, w2))
  ∧ last (trace (run handle (generate_html_report data fname) w))
    = Some (WriteFile name text)
  ∧ saved_files (trace (run handle (generate_html_report data fname) w))
    = ["charged_vs_drained_plot.png"; "stress_level.png"; "sleep_statistics.png"].
Proof. apply report_written. Qed.

Lemma report_file_is_rendering_witness :
  In (WriteFile Sample.report_file "<html>{{ advice }}</html>")
     (trace (run Sample.handle (generate_html_report Sample.window Sample.report_file) 0))
  ∧ last (trace (run Sample.handle (generate_html_report Sample.window Sample.report_file) 0))
    = Some (WriteFile Sample.report_file "<html>{{ advice }}</html>").
Proof.
  assert (Hin : In (WriteFile Sample.report_file "<html>{{ advice }}</html>")
                  (trace (run Sample.handle
                            (generate_html_report Sample.window Sample.report_file) 0)))
    by (vm_compute; do 7 right; left; reflexivity).
  split; [exact Hin|].
  apply (report_file_is_rendering nat Sample.handle 0%nat Sample.window
           Sample.report_file _ _ Hin).
Defined.

(** X3: the charts are saved before the template is opened.  In an
    environment where the template cannot be read, every run raises,
    nothing is rendered and no report is written; a run that got as far as
    the template ends with the exception of the read and leaves the three
    chart files behind. *)
Theorem template_failure_leaves_charts (W : Type)
    (handle : ∀ ev, W → outcome (resp ev) * W) (w : W) (data : list DailyRecord)
    (fname : string) (e : exn) :
  (∀ name w1, ∃ w2, handle (ReadFile name) w1 = (Raises e, w2)) →
  is_raise (value (run handle (generate_html_report data fname) w)) = true
  ∧ rendered (trace (run handle (generate_html_report data fname) w)) = []
  ∧ (∀ name text,
       ¬ In (WriteFile name text) (trace (run handle (generate_html_report data fname) w)))
  ∧ (In (ReadFile "energy_report_template.html")
        (trace (run handle (generate_html_report data fname) w)) →
     value (run handle (generate_html_report data fname) w) = Raises e
     ∧ saved_files (trace (run handle (generate_html_report data fname) w))
       = ["charged_vs_drained_plot.png"; "stress_level.png"; "sleep_statistics.png"]).
Proof. apply template_missing. Qed.

Lemma template_failure_leaves_charts_witness :
  value (run Scenario.handle_no_template
           (generate_html_report Sample.window Sample.report_file) 0)
  = Raises (ExternalError "FileNotFoundError")
  ∧ saved_files (trace (run Scenario.handle_no_template
                          (generate_html_report Sample.window Sample.report_file) 0))
    = ["charged_vs_drained_plot.png"; "stress_level.png"; "sleep_statistics.png"].
Proof.
  apply (template_failure_leaves_charts nat Scenario.handle_no_template 0%nat
           Sample.window Sample.report_file (ExternalError "FileNotFoundError")).
  - intros name w1. exists (S w1). reflexivity.
  - vm_compute. do 5 right. left. reflexivity.
Defined.

(** X4: a failing narrative request ends the report with the exception of
    the request: the only effects are the creation of the client and the
    request itself, so no chart is drawn and no report written. *)
Theorem narrative_failure_aborts (W : Type) (handle : ∀ ev, W → outcome (resp ev) * W)
    (w w1 : W) (x : unit) (data : list DailyRecord) (fname : string) (e : exn) :
  data ≠ [] →
  handle OpenAIClient w = (Returns x, w1) →
  (∀ messages, ∃ w2, handle (ChatCompletion "gpt-4" messages 1200) w1 = (Raises e, w2)) →
  value (run handle (generate_html_report data fname) w) = Raises e
  ∧ map stage_of (trace (run handle (generate_html_report data fname) w))
    = [ClientCreated; NarrativeRequested].
Proof. apply narrative_failure. Qed.

Lemma narrative_failure_aborts_witness :
  value (run Scenario.handle_no_narrative
           (generate_html_report Sample.window Sample.report_file) 0)
  = Raises (ExternalError "APIConnectionError")
  ∧ map stage_of (trace (run Scenario.handle_no_narrative
                           (generate_html_report Sample.window Sample.report_file) 0))
    = [ClientCreated; NarrativeRequested].
Proof.
  apply (narrative_failure_aborts nat Scenario.handle_no_narrative 0%nat 1%nat tt).
  - discriminate.
  - reflexivity.
  - intros messages. exists 2%nat. reflexivity.
Defined.

(** X5: a negative day whose date is not an ISO date makes the weekday
    analysis raise, and then no figure is saved and nothing is rendered;
    when the narrative was answered the run ends with that exception, after
    the narrative request and before the charts. *)
Theorem bad_date_aborts_after_narrative (W : Type)
    (handle : ∀ ev, W → outcome (resp ev) * W) (w : W) (data : list DailyRecord)
    (fname : string) (e : exn) :
  max_day_of_week_negative data = Raises e →
  is_raise (value (run handle (generate_html_report data fname) w)) = true
  ∧ saved_files (trace (run handle (generate_html_report data fname) w)) = []
  ∧ rendered (trace (run handle (generate_html_report data fname) w)) = []
  ∧ (∀ x w1,
       handle OpenAIClient w = (Returns x, w1) →
       (∀ messages, ∃ raw w2,
          handle (ChatCompletion "gpt-4" messages 1200) w1 = (Returns raw, w2)) →
       value (run handle (generate_html_report data fname) w) = Raises e
       ∧ map stage_of (trace (run handle (generate_html_report data fname) w))
         = [ClientCreated; NarrativeRequested]).
Proof. apply weekday_failure. Qed.

Lemma bad_date_aborts_after_narrative_witness :
  max_day_of_week_negative Scenario.bad_date_window = Raises ValueError
  ∧ value (run Sample.handle
             (generate_html_report Scenario.bad_date_window Sample.report_file) 0)
    = Raises ValueError
  ∧ map stage_of (trace (run Sample.handle
                           (generate_html_report Scenario.bad_date_window
                              Sample.report_file) 0))
    = [ClientCreated; NarrativeRequested].
Proof.
  assert (Hday : max_day_of_week_negative Scenario.bad_date_window = Raises ValueError)
    by (vm_compute; reflexivity).
  split; [exact Hday|].
  destruct (bad_date_aborts_after_narrative nat Sample.handle 0%nat
              Scenario.bad_date_window Sample.report_file ValueError Hday)
    as (_ & _ & _ & H).
  apply (H tt 1%nat); [reflexivity|].
  intros messages. do 2 eexists. reflexivity.
Defined.

(** ** The weekday that is reported *)

Lemma days_of_week_each (neg : list DailyRecord) (days : list nat) :
  days_of_week neg = Returns days →
  Forall2 (λ entry d, Datetime.weekday <$> Datetime.strptime (date entry) = Returns d)
          neg days.
Proof.
  unfold days_of_week. revert days.
  induction neg as [|r neg IH]; intros days; cbn [mapM].
  - intros [= <-]. constructor.
  - intros H.
    apply outcome_bind_returns in H as (d & Hd & H).
    apply outcome_bind_returns in H as (ds & Hds & [= <-]).
    constructor; [exact Hd|apply IH, Hds].
Qed.

Lemma weekday_lt (d : Datetime.date) : (Datetime.weekday d < 7)%nat.
Proof.
  unfold Datetime.weekday.
  pose proof (Z.mod_pos_bound (Datetime.toordinal d + 6) 7 eq_refl). lia.
Qed.

Lemma days_of_week_lt (neg : list DailyRecord) (days : list nat) :
  days_of_week neg = Returns days → Forall (λ d, (d < 7)%nat) days.
Proof.
  intros H. apply days_of_week_each in H.
  induction H as [|r d neg days Hd _ IH]; constructor; [|exact IH].
  destruct (Datetime.strptime (date r)) as [x|]; [|discriminate Hd].
  injection Hd as <-. apply weekday_lt.
Qed.

Lemma count_cons (x : nat) (days : list nat) (j : nat) :
  Py.count (x :: days) j = ((if decide (x = j) then 1 else 0) + Py.count days j)%nat.
Proof.
  unfold Py.count. rewrite filter_cons. destruct (decide (x = j)); reflexivity.
Qed.

(** The histogram loses no day: its seven counts add up to the number of
    weekdays counted. *)
Lemma counts_sum (days : list nat) :
  Forall (λ d, (d < 7)%nat) days →
  sum_list (day_of_week_counts days) = length days.
Proof.
  induction 1 as [|x days Hx _ IH]; [reflexivity|].
  unfold day_of_week_counts in *. cbn [seq map sum_list sum_list_with] in *.
  rewrite !count_cons. cbn [length]. revert IH.
  generalize (Py.count days 0), (Py.count days 1), (Py.count days 2),
    (Py.count days 3), (Py.count days 4), (Py.count days 5), (Py.count days 6).
  intros c0 c1 c2 c3 c4 c5 c6 IH.
  unfold id in *.
  do 7 (destruct x as [|x]; [repeat (case_decide; try lia)|]). lia.
Qed.

Lemma sum_list_bound (xs : list nat) (m : nat) :
  (∀ y, y ∈ xs → (y ≤ m)%nat) → (sum_list xs ≤ m * length xs)%nat.
Proof.
  induction xs as [|x xs IH]; intros H; cbn [sum_list sum_list_with length]; [lia|].
  assert (x ≤ m)%nat by (apply H; left).
  assert (sum_list xs ≤ m * length xs)%nat by (apply IH; intros y Hy; apply H; right; exact Hy).
  rewrite Nat.mul_succ_r. unfold sum_list, id in *. lia.
Qed.

Lemma count_pos_elem (days : list nat) (i : nat) :
  (0 < Py.count days i)%nat → i ∈ days.
Proof.
  unfold Py.count. intros H.
  destruct (filter (λ y, y = i) days) as [|x l] eqn:Hf; [cbn in H; lia|].
  assert (Hx : x ∈ filter (λ y, y = i) days) by (rewrite Hf; left).
  apply list_elem_of_filter in Hx as [-> Hx]. exact Hx.
Qed.

(** The index the analysis picks: below 7, with the largest count, which is
    at least one. *)
Lemma worst_index (data : list DailyRecord) (days : list nat) (name : string) :
  negative_days data ≠ [] →
  days_of_week (negative_days data) = Returns days →
  max_day_of_week_negative data = Returns name →
  ∃ i, Datetime.day_name !! i = Some name ∧ i ∈ days.
Proof.
  intros Hne Hdays. unfold max_day_of_week_negative. rewrite Hdays.
  destruct (negative_days data) as [|r neg] eqn:Hneg; [congruence|].
  cbn [mbind outcome_bind].
  destruct (max_spec (day_of_week_counts days)) as (m & Hmax & Hin & Hle);
    [discriminate|].
  rewrite Hmax. cbn [mbind outcome_bind].
  destruct (index_spec _ _ Hin) as (i & Hidx & Hi & _). rewrite Hidx.
  cbn [mbind outcome_bind]. unfold Py.getitem.
  assert (Hi7 : (i < 7)%nat).
  { rewrite <- (counts_length days). apply lookup_lt_Some in Hi. exact Hi. }
  rewrite counts_lookup in Hi by exact Hi7. injection Hi as Hi.
  destruct (Datetime.day_name !! i) as [n|] eqn:Hn; [|discriminate].
  intros [= <-]. exists i. split; [exact Hn|].
  apply count_pos_elem. rewrite Hi.
  pose proof (counts_sum days (days_of_week_lt _ _ Hdays)) as Hsum.
  pose proof (sum_list_bound _ _ Hle) as Hb. rewrite counts_length in Hb.
  apply days_of_week_each in Hdays. apply Forall2_length in Hdays.
  cbn [length] in Hdays. lia.
Qed.

(** X6: the weekday the report names is the weekday of at least one
    negative day of the window. *)
Theorem worst_weekday_has_negative_day (data : list DailyRecord) (name : string) :
  negative_days data ≠ [] →
  max_day_of_week_negative data = Returns name →
  ∃ i entry,
    Datetime.day_name !! i = Some name
    ∧ entry ∈ negative_days data
    ∧ Datetime.weekday <$> Datetime.strptime (date entry) = Returns i.
Proof.
  intros Hne Hname.
  destruct (days_of_week (negative_days data)) as [days|e] eqn:Hdays.
  - destruct (worst_index data days name Hne Hdays Hname) as (i & Hn & Hi).
    apply days_of_week_each in Hdays.
    apply list_elem_of_lookup in Hi as [k Hk].
    destruct (Forall2_lookup_r _ _ _ _ _ Hdays Hk) as (entry & Hentry & Hw).
    exists i, entry. split; [exact Hn|]. split; [|exact Hw].
    apply list_elem_of_lookup. exists k. exact Hentry.
  - unfold max_day_of_week_negative in Hname. rewrite Hdays in Hname.
    destruct (negative_days data); [congruence|discriminate Hname].
Qed.

Lemma worst_weekday_has_negative_day_witness :
  ∃ i entry,
    Datetime.day_name !! i = Some "Monday"
    ∧ entry ∈ negative_days Sample.tie_window
    ∧ Datetime.weekday <$> Datetime.strptime (date entry) = Returns i.
Proof.
  apply (worst_weekday_has_negative_day Sample.tie_window "Monday").
  - vm_compute. discriminate.
  - vm_compute. reflexivity.
Defined.

(** X7: the sentinel is unambiguous: the analysis returns N/A exactly when
    the window has no negative day. *)
Theorem sentinel_iff_no_negative_day (data : list DailyRecord) :
  max_day_of_week_negative data = Returns "N/A" ↔ negative_days data = [].
Proof.
  split.
  - intros Hname.
    destruct (negative_days data) as [|r neg] eqn:Hneg; [reflexivity|exfalso].
    destruct (days_of_week (negative_days data)) as [days|e] eqn:Hdays.
    + destruct (worst_index data days "N/A") as (i & Hn & _);
        [rewrite Hneg; discriminate|exact Hdays|exact Hname|].
      apply list_elem_of_lookup_2 in Hn. revert Hn.
      apply (bool_decide_unpack _). vm_compute. exact I.
    + unfold max_day_of_week_negative in Hname. rewrite Hdays, Hneg in Hname.
      discriminate Hname.
  - unfold max_day_of_week_negative. intros ->. reflexivity.
Qed.

(** ** Post-processing as an operation on texts *)

Lemma line_breaks_absent (s : string) :
  has_char "010" s = false → line_breaks s = s.
Proof.
  induction s as [|c s IH]; [reflexivity|].
  cbn [has_char line_breaks]. intros H. apply orb_false_iff in H as [Hc Hs].
  rewrite Hc, IH by exact Hs. reflexivity.
Qed.

Lemma postprocess_unchanged (s : string) :
  has_char "010" s = false → has_bold s = false → postprocess s = s.
Proof.
  intros Hn Hb. unfold postprocess. rewrite replace_newlines, line_breaks_absent by exact Hn.
  unfold Py.str_replace.
  rewrite (replace_bold_absent "</b>") by exact Hb.
  apply replace_bold_absent, Hb.
Qed.

(** X8: post-processing a text a second time changes nothing. *)
Theorem postprocess_idempotent (advice : string) :
  postprocess (postprocess advice) = postprocess advice.
Proof.
  destruct (postprocess_closing_only advice) as (_ & Hn & Hb).
  apply postprocess_unchanged; assumption.
Qed.

(** X9: the texts that post-processing leaves as they are, are exactly
    those with no newline and no occurrence of the delimiter (two asterisks
    and a space); a bold span closed right before punctuation or the end of
    the text has no such occurrence. *)
Theorem postprocess_fixed_points (advice : string) :
  postprocess advice = advice ↔ has_char "010" advice = false ∧ has_bold advice = false.
Proof.
  split.
  - intros Heq. destruct (postprocess_closing_only advice) as (_ & Hn & Hb).
    rewrite Heq in Hn, Hb. split; assumption.
  - intros [Hn Hb]. apply postprocess_unchanged; assumption.
Qed.

Lemma postprocess_fixed_points_witness :
  postprocess "Sleep **earlier**." = "Sleep **earlier**.".
Proof. apply postprocess_fixed_points. split; vm_compute; reflexivity. Defined.

(** ** The bars of the charts and the days of the report *)

Lemma bars_counts (data : list DailyRecord) :
  length (filter (λ b, b.2 = "green") (bars data))
  = length (filter (λ r, (charged r > drained r)%Z) data)
  ∧ length (filter (λ b, b.2 = "red") (bars data))
    = length (filter (λ r, (charged r <= drained r)%Z) data).
Proof.
  unfold bars. induction data as [|r data [IHg IHr]]; [split; reflexivity|].
  cbn [map]. rewrite !filter_cons. cbn [snd].
  destruct (decide (charged r > drained r)%Z) as [Hgt|Hle].
  - rewrite decide_True by reflexivity. rewrite decide_False by discriminate.
    rewrite decide_False by lia. cbn [length]. rewrite IHg, IHr. split; reflexivity.
  - rewrite decide_False by discriminate. rewrite decide_True by reflexivity.
    rewrite decide_True by lia. cbn [length]. rewrite IHg, IHr. split; reflexivity.
Qed.

Lemma positive_split (data : list DailyRecord) :
  length (positive_days data)
  = (length (filter (λ r, (charged r > drained r)%Z) data)
     + length (filter (λ r, charged r = drained r) data))%nat.
Proof.
  unfold positive_days. induction data as [|r data IH]; [reflexivity|].
  rewrite !filter_cons.
  destruct (decide (charged r >= drained r)%Z), (decide (charged r > drained r)%Z),
    (decide (charged r = drained r)); cbn [length]; lia.
Qed.

Lemma red_split (data : list DailyRecord) :
  length (filter (λ r, (charged r <= drained r)%Z) data)
  = (length (negative_days data)
     + length (filter (λ r, charged r = drained r) data))%nat.
Proof.
  unfold negative_days. induction data as [|r data IH]; [reflexivity|].
  rewrite !filter_cons.
  destruct (decide (charged r <= drained r)%Z), (decide (charged r < drained r)%Z),
    (decide (charged r = drained r)); cbn [length]; lia.
Qed.

(** X10: the charts and the report classify the days differently on a tie.
    Every day has one bar, green or red; the red bars are the negative days
    together with the days charged exactly as much as drained, which the
    report lists as positive; so there are as many green bars as positive
    days only when no day is a tie. *)
Theorem chart_colours_and_days (data : list DailyRecord) :
  length (bars data) = length data
  ∧ (length (filter (λ b, b.2 = "green") (bars data))
     + length (filter (λ b, b.2 = "red") (bars data)) = length data)%nat
  ∧ (length (filter (λ b, b.2 = "red") (bars data))
     = length (negative_days data)
       + length (filter (λ r, charged r = drained r) data))%nat
  ∧ (length (filter (λ b, b.2 = "green") (bars data))
     + length (filter (λ r, charged r = drained r) data)
     = length (positive_days data))%nat.
Proof.
  destruct (bars_counts data) as [Hg Hr].
  pose proof (positive_split data) as Hp. pose proof (red_split data) as Hn.
  pose proof (length_partition data) as Hl.
  split; [unfold bars; apply length_map|]. lia.
Qed.

(** A day charged exactly as much as drained: positive in the report, red
    in the charts. *)
Example chart_tie_day :
  positive_days [Sample.day "2024-01-05" 70 70] = [Sample.day "2024-01-05" 70 70]
  ∧ bars [Sample.day "2024-01-05" 70 70] = [("2024-01-05", 70%Z, "red")].
Proof. split; vm_compute; reflexivity. Qed.

(** ** Looking a code up twice *)

Lemma explanation_not_code (m : gmap string string) (codes : list string) :
  dom m = list_to_set codes →
  Forall (λ code, default code (m !! code) ∉ codes) codes →
  ∀ s, default (default s (m !! s)) (m !! default s (m !! s)) = default s (m !! s).
Proof.
  intros Hdom Hall s.
  destruct (decide (s ∈ codes)) as [Hin|Hout].
  - rewrite Forall_forall in Hall. apply (get_miss m codes _ Hdom), Hall, Hin.
  - rewrite (get_miss m codes s Hdom Hout). apply (get_miss m codes s Hdom Hout).
Qed.

(** X11: no explanation text is itself a code, so explaining an explained
    value changes nothing: both lookup functions are idempotent, and a
    record can be passed through them any number of times. *)
Theorem explanations_idempotent (s : string) :
  get_sleep_feedback_explanation (get_sleep_feedback_explanation s)
  = get_sleep_feedback_explanation s
  ∧ get_sleep_insight_explanation (get_sleep_insight_explanation s)
    = get_sleep_insight_explanation s.
Proof.
  split.
  - apply (explanation_not_code feedback_mapping feedback_codes feedback_dom).
    apply (bool_decide_unpack _). vm_compute. exact I.
  - apply (explanation_not_code insight_mapping insight_codes insight_dom).
    apply (bool_decide_unpack _). vm_compute. exact I.
Qed.

(** ** When the aggregation succeeds *)

Lemma extract_values_complete (json_data : list json) :
  Forall (λ j, ∀ k, k ∈ required_battery → is_Some (field j [k])) json_data →
  ∃ bb, extract_values json_data = Returns bb.
Proof.
  unfold extract_values.
  induction 1 as [|j js Hj _ [bb IH]]; [eexists; reflexivity|].
  cbn [mapM].
  destruct (Hj "date") as [d Hd]; [set_solver|].
  destruct (Hj "charged") as [c Hc]; [set_solver|].
  destruct (Hj "drained") as [r Hr]; [set_solver|].
  apply subscript_field in Hd, Hc, Hr. rewrite Hd, Hc, Hr.
  cbn [mbind outcome_bind mret outcome_ret]. rewrite IH.
  eexists. reflexivity.
Qed.

(** X12: [extract_values] returns exactly when every structure of the
    answer has the date, charged and drained fields; it then returns one
    entry per structure. *)
Theorem extract_values_succeeds_iff (json_data : list json) :
  ((∃ bb, extract_values json_data = Returns bb)
   ↔ Forall (λ j, ∀ k, k ∈ required_battery → is_Some (field j [k])) json_data)
  ∧ (∀ bb, extract_values json_data = Returns bb → length bb = length json_data).
Proof.
  split; [split|].
  - intros [bb Hbb]. apply extract_values_returns in Hbb.
    induction Hbb as [|j b js bs (Hd & Hc & Hr) _ IH]; constructor; [|exact IH].
    intros k Hk. unfold required_battery in Hk.
    repeat (apply elem_of_cons in Hk as [->|Hk]; [eauto|]). inversion Hk.
  - apply extract_values_complete.
  - intros bb Hbb. apply extract_values_returns in Hbb.
    symmetry. apply (Forall2_length _ _ _ Hbb).
Qed.

Section AggregationEffects.
Context {W : Type}.
Variable handle : forall ev : ext, W -> outcome (resp ev) * W.

Ltac lift_one :=
  rewrite (run_lift_bind handle);
  match goal with
  | |- context [match ?r with Returns _ => _ | Raises _ => _ end] =>
      destruct r eqn:?
  end.

Ltac call_one :=
  cbn [run bind];
  match goal with
  | |- context [handle ?ev ?w] =>
      let x := fresh "x" in let e := fresh "e" in let w' := fresh "w" in
      destruct (handle ev w) as [[x|e] w'] eqn:?
  end.

(** The loop body that returns has asked for the sleep data and then for
    the stress data of its date, and for nothing else. *)
Lemma new_entry_calls (entry : battery_entry) (w : W) (e : combined_entry) :
  value (run handle (new_entry entry) w) = Returns e →
  trace (run handle (new_entry entry) w)
  = [GetSleepData (ce_date e); GetStressData (ce_date e)].
Proof.
  unfold new_entry, mbind, Prog_bind, call.
  call_one; [|discriminate]. cbn [value trace after].
  do 7 (lift_one; [|discriminate]).
  call_one; [|discriminate]. cbn [value trace after].
  do 2 (lift_one; [|discriminate]).
  cbn [run value trace]. intros [= <-]. reflexivity.
Qed.

Lemma aggregation_loop_calls (bb : list battery_entry) (acc : list combined_entry)
    (w : W) (out : list combined_entry) :
  value (run handle (aggregation_loop bb acc) w) = Returns out →
  ∃ news, out = (acc ++ news)%list ∧ length news = length bb
    ∧ trace (run handle (aggregation_loop bb acc) w)
      = flat_map (λ e, [GetSleepData (ce_date e); GetStressData (ce_date e)]) news.
Proof.
  revert acc w. induction bb as [|entry rest IH]; intros acc w.
  - intros [= <-]. exists []. split; [symmetry; apply app_nil_r|]. split; reflexivity.
  - change (aggregation_loop (entry :: rest) acc)
      with (bind (new_entry entry) (λ x, aggregation_loop rest (acc ++ [x]))).
    rewrite (run_bind handle).
    destruct (value (run handle (new_entry entry) w)) as [e|] eqn:He; [|discriminate].
    cbn [value trace]. intros H. apply IH in H as (news & -> & Hlen & Ht).
    exists (e :: news). split; [rewrite <- app_assoc; reflexivity|].
    split; [cbn [length]; congruence|].
    rewrite Ht, (new_entry_calls entry w e He). reflexivity.
Qed.

Lemma combined_data_array_calls (body_battery : list json) (w : W)
    (out : list combined_entry) :
  value (run handle (combined_data_array body_battery) w) = Returns out →
  length out = length body_battery
  ∧ trace (run handle (combined_data_array body_battery) w)
    = flat_map (λ e, [GetSleepData (ce_date e); GetStressData (ce_date e)]) out.
Proof.
  unfold combined_data_array, mbind, Prog_bind. rewrite (run_lift_bind handle).
  destruct (extract_values body_battery) as [bb|] eqn:Hx; [|discriminate].
  intros H. apply aggregation_loop_calls in H as (news & -> & Hlen & Ht).
  apply extract_values_returns, Forall2_length in Hx.
  split; [cbn [app]; congruence|exact Ht].
Qed.

(** Complete answers with codes that can be looked up give the entry. *)
Lemma new_entry_complete (entry : battery_entry) (w w1 w2 : W) (sleep stress : json)
    (s1 s2 s3 s4 s5 c1 c2 x1 x2 a m : json) :
  handle (GetSleepData (bb_date entry)) w = (Returns sleep, w1) →
  handle (GetStressData (bb_date entry)) w1 = (Returns stress, w2) →
  field sleep ["dailySleepDTO"; "sleepTimeSeconds"] = Some s1 →
  field sleep ["dailySleepDTO"; "deepSleepSeconds"] = Some s2 →
  field sleep ["dailySleepDTO"; "lightSleepSeconds"] = Some s3 →
  field sleep ["dailySleepDTO"; "remSleepSeconds"] = Some s4 →
  field sleep ["dailySleepDTO"; "awakeSleepSeconds"] = Some s5 →
  field sleep ["dailySleepDTO"; "sleepScoreFeedback"] = Some c1 →
  explain get_sleep_feedback_explanation c1 = Returns x1 →
  field sleep ["dailySleepDTO"; "sleepScoreInsight"] = Some c2 →
  explain get_sleep_insight_explanation c2 = Returns x2 →
  field stress ["avgStressLevel"] = Some a →
  field stress ["maxStressLevel"] = Some m →
  run handle (new_entry entry) w
  = {| value := Returns {| ce_date := bb_date entry;
                           ce_charged := bb_charged entry;
                           ce_drained := bb_drained entry;
                           ce_sleep_seconds := s1;
                           ce_deep_sleep_seconds := s2;
                           ce_light_sleep_seconds := s3;
                           ce_rem_sleep_seconds := s4;
                           ce_awake_sleep_seconds := s5;
                           ce_sleep_feedback := x1;
                           ce_sleep_insight := x2;
                           ce_avg_stress_level := a;
                           ce_max_stress_level := m |};
       world := w2;
       trace := [GetSleepData (bb_date entry); GetStressData (bb_date entry)] |}.
Proof.
  intros Hsleep Hstress H1 H2 H3 H4 H5 Hc1 Hx1 Hc2 Hx2 Ha Hm.
  apply subscript2_field in H1, H2, H3, H4, H5, Hc1, Hc2.
  apply subscript_field in Ha, Hm.
  unfold new_entry, mbind, Prog_bind, call. cbn [run bind]. rewrite Hsleep.
  rewrite !(run_lift_bind handle), H1.
  rewrite !(run_lift_bind handle), H2.
  rewrite !(run_lift_bind handle), H3.
  rewrite !(run_lift_bind handle), H4.
  rewrite !(run_lift_bind handle), H5.
  rewrite !(run_lift_bind handle), Hc1. cbn [outcome_bind]. rewrite Hx1.
  rewrite !(run_lift_bind handle), Hc2. cbn [outcome_bind]. rewrite Hx2.
  cbn [run bind]. rewrite Hstress.
  rewrite !(run_lift_bind handle), Ha.
  rewrite !(run_lift_bind handle), Hm.
  reflexivity.
Qed.

(** A code that is a list or a dict cannot be looked up: the loop body
    raises TypeError after the sleep call. *)
Lemma new_entry_unhashable (entry : battery_entry) (w w1 : W) (sleep : json)
    (s1 s2 s3 s4 s5 code : json) :
  handle (GetSleepData (bb_date entry)) w = (Returns sleep, w1) →
  field sleep ["dailySleepDTO"; "sleepTimeSeconds"] = Some s1 →
  field sleep ["dailySleepDTO"; "deepSleepSeconds"] = Some s2 →
  field sleep ["dailySleepDTO"; "lightSleepSeconds"] = Some s3 →
  field sleep ["dailySleepDTO"; "remSleepSeconds"] = Some s4 →
  field sleep ["dailySleepDTO"; "awakeSleepSeconds"] = Some s5 →
  field sleep ["dailySleepDTO"; "sleepScoreFeedback"] = Some code →
  (∃ l, code = JArr l) ∨ (∃ o, code = JObj o) →
  run handle (new_entry entry) w
  = {| value := Raises TypeError; world := w1;
       trace := [GetSleepData (bb_date entry)] |}.
Proof.
  intros Hsleep H1 H2 H3 H4 H5 Hc Hcode.
  apply subscript2_field in H1, H2, H3, H4, H5, Hc.
  unfold new_entry, mbind, Prog_bind, call. cbn [run bind]. rewrite Hsleep.
  rewrite !(run_lift_bind handle), H1.
  rewrite !(run_lift_bind handle), H2.
  rewrite !(run_lift_bind handle), H3.
  rewrite !(run_lift_bind handle), H4.
  rewrite !(run_lift_bind handle), H5.
  rewrite !(run_lift_bind handle), Hc.
  destruct Hcode as [[l ->]|[o ->]]; reflexivity.
Qed.

End AggregationEffects.

(** X13: an aggregation that returns has one entry per structure of the
    body-battery answer and has asked the provider, date after date in the
    order of the answer, for the sleep data and then for the stress data of
    that date: two calls per date and no others. *)
Theorem aggregation_calls (W : Type) (handle : ∀ ev, W → outcome (resp ev) * W)
    (w : W) (body_battery : list json) (out : list combined_entry) :
  value (run handle (combined_data_array body_battery) w) = Returns out →
  length out = length body_battery
  ∧ trace (run handle (combined_data_array body_battery) w)
    = flat_map (λ e, [GetSleepData (ce_date e); GetStressData (ce_date e)]) out.
Proof. apply combined_data_array_calls. Qed.

Lemma aggregation_calls_witness :
  ∃ out,
    value (run Sample.handle
             (combined_data_array [Sample.battery_answer "2024-01-01" 50 80;
                                   Sample.battery_answer "2024-01-02" 90 40]) 0)
    = Returns out
    ∧ length out = 2
    ∧ trace (run Sample.handle
               (combined_data_array [Sample.battery_answer "2024-01-01" 50 80;
                                     Sample.battery_answer "2024-01-02" 90 40]) 0)
      = [GetSleepData (JStr "2024-01-01"); GetStressData (JStr "2024-01-01");
         GetSleepData (JStr "2024-01-02"); GetStressData (JStr "2024-01-02")].
Proof.
  eexists. split; [vm_compute; reflexivity|].
  match goal with
  | |- length ?out = _ ∧ _ =>
      destruct (aggregation_calls nat Sample.handle 0%nat
                  [Sample.battery_answer "2024-01-01" 50 80;
                   Sample.battery_answer "2024-01-02" 90 40] out) as [Hl Ht];
        [vm_compute; reflexivity|]
  end.
  split; [exact Hl|]. rewrite Ht. reflexivity.
Defined.

(** X14: when the provider answers both calls for a date, the sleep answer
    holds the five durations and the two codes, the codes are values the
    lookup accepts, and the stress answer holds average and maximum, the
    loop body returns the entry made of exactly these values and of the
    battery entry's date, charged and drained, after these two calls. *)
Theorem new_entry_succeeds (W : Type) (handle : ∀ ev, W → outcome (resp ev) * W)
    (entry : battery_entry) (w w1 w2 : W) (sleep stress : json)
    (s1 s2 s3 s4 s5 c1 c2 x1 x2 a m : json) :
  handle (GetSleepData (bb_date entry)) w = (Returns sleep, w1) →
  handle (GetStressData (bb_date entry)) w1 = (Returns stress, w2) →
  field sleep ["dailySleepDTO"; "sleepTimeSeconds"] = Some s1 →
  field sleep ["dailySleepDTO"; "deepSleepSeconds"] = Some s2 →
  field sleep ["dailySleepDTO"; "lightSleepSeconds"] = Some s3 →
  field sleep ["dailySleepDTO"; "remSleepSeconds"] = Some s4 →
  field sleep ["dailySleepDTO"; "awakeSleepSeconds"] = Some s5 →
  field sleep ["dailySleepDTO"; "sleepScoreFeedback"] = Some c1 →
  explain get_sleep_feedback_explanation c1 = Returns x1 →
  field sleep ["dailySleepDTO"; "sleepScoreInsight"] = Some c2 →
  explain get_sleep_insight_explanation c2 = Returns x2 →
  field stress ["avgStressLevel"] = Some a →
  field stress ["maxStressLevel"] = Some m →
  run handle (new_entry entry) w
  = {| value := Returns {| ce_date := bb_date entry;
                           ce_charged := bb_charged entry;
                           ce_drained := bb_drained entry;
                           ce_sleep_seconds := s1;
                           ce_deep_sleep_seconds := s2;
                           ce_light_sleep_seconds := s3;
                           ce_rem_sleep_seconds := s4;
                           ce_awake_sleep_seconds := s5;
                           ce_sleep_feedback := x1;
                           ce_sleep_insight := x2;
                           ce_avg_stress_level := a;
                           ce_max_stress_level := m |};
       world := w2;
       trace := [GetSleepData (bb_date entry); GetStressData (bb_date entry)] |}.
Proof. apply new_entry_complete. Qed.

Lemma new_entry_succeeds_witness :
  ∃ e, run Sample.handle (new_entry Scenario.first_day) 0
       = {| value := Returns e; world := 2;
            trace := [GetSleepData (JStr "2024-01-01"); GetStressData (JStr "2024-01-01")] |}
       ∧ ce_sleep_insight e = JStr "SOME_NEW_CODE".
Proof.
  eexists. split.
  - apply (new_entry_succeeds nat Sample.handle Scenario.first_day 0%nat 1%nat 2%nat
             Sample.sleep_answer Sample.stress_answer
             (JNum 27000) (JNum 5400) (JNum 16200) (JNum 4500) (JNum 900)
             (JStr "POSITIVE_DEEP") (JStr "SOME_NEW_CODE")
             (JStr (get_sleep_feedback_explanation "POSITIVE_DEEP")) (JStr "SOME_NEW_CODE")
             (JNum 31) (JNum 92));
      vm_compute; reflexivity.
  - reflexivity.
Defined.

(** X15: a feedback code that is a list or a dict cannot be a key of the
    lookup table: with the five durations present, the loop body raises
    TypeError right after the sleep call and never asks for the stress data. *)
Theorem unhashable_code_raises (W : Type) (handle : ∀ ev, W → outcome (resp ev) * W)
    (entry : battery_entry) (w w1 : W) (sleep : json) (s1 s2 s3 s4 s5 code : json) :
  handle (GetSleepData (bb_date entry)) w = (Returns sleep, w1) →
  field sleep ["dailySleepDTO"; "sleepTimeSeconds"] = Some s1 →
  field sleep ["dailySleepDTO"; "deepSleepSeconds"] = Some s2 →
  field sleep ["dailySleepDTO"; "lightSleepSeconds"] = Some s3 →
  field sleep ["dailySleepDTO"; "remSleepSeconds"] = Some s4 →
  field sleep ["dailySleepDTO"; "awakeSleepSeconds"] = Some s5 →
  field sleep ["dailySleepDTO"; "sleepScoreFeedback"] = Some code →
  (∃ l, code = JArr l) ∨ (∃ o, code = JObj o) →
  run handle (new_entry entry) w
  = {| value := Raises TypeError; world := w1;
       trace := [GetSleepData (bb_date entry)] |}.
Proof. apply new_entry_unhashable. Qed.

Lemma unhashable_code_raises_witness :
  run Scenario.handle_list_code (new_entry Scenario.first_day) 0
  = {| value := Raises TypeError; world := 1;
       trace := [GetSleepData (JStr "2024-01-01")] |}.
Proof.
  apply (unhashable_code_raises nat Scenario.handle_list_code Scenario.first_day
           0%nat 1%nat Scenario.sleep_answer_list_code
           (JNum 27000) (JNum 5400) (JNum 16200) (JNum 4500) (JNum 900)
           (JArr [JStr "POSITIVE_DEEP"]));
    try (vm_compute; reflexivity).
  left. eexists. reflexivity.
Defined.

(** ** Logging in *)

Section LoginFacts.
Context {W : Type}.
Variable env : ∀ ev : io, W → answer (io_resp ev) * W.

Ltac unfold_login :=
  unfold init_api, perform, unbound_name, mbind, Proc_mbind, mret, Proc_mret.

Ltac login_step :=
  cbn [exec try_except pbind];
  lazymatch goal with
  | |- context [env ?ev ?w] =>
      let a := fresh "a" in let x := fresh "x" in let w' := fresh "w" in
      destruct (env ev w) as [[a|x] w'] eqn:?
  | |- context [if ?b then _ else _] => destruct b eqn:?
  end.

(** [init_api] returns a client or raises: the None of its last handler is
    never reached, since the handler raises NameError before. *)
Lemma init_api_not_none (email password : option string) (tokenstore base64 : string)
    (w : W) :
  result (exec env (init_api email password tokenstore base64) w) ≠ Value None.
Proof.
  unfold_login.
  repeat login_step; cbn [exec try_except pbind result then_call]; discriminate.
Qed.

(** Stored tokens that log in: two calls, and the client is returned. *)
Lemma init_api_tokens (email password : option string) (tokenstore base64 : string)
    (w w1 w2 : W) (garmin : client) (u : unit) :
  env (NewGarmin None) w = (Value garmin, w1) →
  env (GarminLogin garmin (Some tokenstore)) w1 = (Value u, w2) →
  exec env (init_api email password tokenstore base64) w
  = {| result := Value (Some garmin); final := w2;
       calls := [NewGarmin None; GarminLogin garmin (Some tokenstore)] |}.
Proof.
  intros Hnew Hlogin. unfold_login.
  cbn [exec try_except pbind]. rewrite Hnew.
  cbn [exec try_except pbind]. rewrite Hlogin. reflexivity.
Qed.

(** An exception of the token login that the first handler does not name
    leaves the function as it is. *)
Lemma init_api_uncaught (email password : option string) (tokenstore base64 : string)
    (w w1 w2 : W) (garmin : client) (x : pyexn) :
  env (NewGarmin None) w = (Value garmin, w1) →
  env (GarminLogin garmin (Some tokenstore)) w1 = (Raised x, w2) →
  token_classes x = false →
  exec env (init_api email password tokenstore base64) w
  = {| result := Raised x; final := w2;
       calls := [NewGarmin None; GarminLogin garmin (Some tokenstore)] |}.
Proof.
  intros Hnew Hlogin Hx. unfold_login.
  cbn [exec try_except pbind]. rewrite Hnew.
  cbn [exec try_except pbind]. rewrite Hlogin.
  cbn [exec try_except pbind]. rewrite Hx. reflexivity.
Qed.

(** Without stored tokens and without both credentials the function asks
    for nothing: it raises the NameError of [get_credentials]. *)
Lemma init_api_no_credentials (email password : option string)
    (tokenstore base64 : string) (w w1 w2 w3 : W) (garmin : client) (x : pyexn)
    (u : unit) :
  env (NewGarmin None) w = (Value garmin, w1) →
  env (GarminLogin garmin (Some tokenstore)) w1 = (Raised x, w2) →
  token_classes x = true →
  env (PrintLine (tokens_missing_text tokenstore)) w2 = (Value u, w3) →
  truthy email = false ∨ truthy password = false →
  exec env (init_api email password tokenstore base64) w
  = {| result := Raised (NameError "get_credentials"); final := w3;
       calls := [NewGarmin None; GarminLogin garmin (Some tokenstore);
                 PrintLine (tokens_missing_text tokenstore)] |}.
Proof.
  intros Hnew Hlogin Hx Hprint Hcred. unfold_login.
  cbn [exec try_except pbind]. rewrite Hnew.
  cbn [exec try_except pbind]. rewrite Hlogin.
  cbn [exec try_except pbind]. rewrite Hx.
  cbn [exec try_except pbind]. rewrite Hprint.
  assert (Hb : negb (truthy email) || negb (truthy password) = true)
    by (destruct Hcred as [-> | ->]; [reflexivity|apply orb_true_r]).
  rewrite Hb. reflexivity.
Qed.

(** Credentials that the service refuses: the second handler catches the
    exception and raises the NameError of [logger] in its place. *)
Lemma init_api_refused (email password : option string) (tokenstore base64 : string)
    (w w1 w2 w3 w4 w5 : W) (garmin garmin' : client) (x x' : pyexn) (u : unit) :
  env (NewGarmin None) w = (Value garmin, w1) →
  env (GarminLogin garmin (Some tokenstore)) w1 = (Raised x, w2) →
  token_classes x = true →
  env (PrintLine (tokens_missing_text tokenstore)) w2 = (Value u, w3) →
  truthy email = true → truthy password = true →
  env (NewGarmin (Some (default "" email, default "" password))) w3
  = (Value garmin', w4) →
  env (GarminLogin garmin' None) w4 = (Raised x', w5) →
  credential_classes x' = true →
  exec env (init_api email password tokenstore base64) w
  = {| result := Raised (NameError "logger"); final := w5;
       calls := [NewGarmin None; GarminLogin garmin (Some tokenstore);
                 PrintLine (tokens_missing_text tokenstore);
                 NewGarmin (Some (default "" email, default "" password));
                 GarminLogin garmin' None] |}.
Proof.
  intros Hnew Hlogin Hx Hprint He Hp Hnew' Hlogin' Hx'. unfold_login.
  cbn [exec try_except pbind]. rewrite Hnew.
  cbn [exec try_except pbind]. rewrite Hlogin.
  cbn [exec try_except pbind]. rewrite Hx.
  cbn [exec try_except pbind]. rewrite Hprint.
  rewrite He, Hp. cbn [negb orb exec try_except pbind]. rewrite Hnew'.
  cbn [exec try_except pbind]. rewrite Hlogin'.
  cbn [exec try_except pbind]. rewrite Hx'. reflexivity.
Qed.

(** Credentials that log in: the tokens are dumped to the token store, and
    the string [garth.dumps] returns is written to the expanded path. *)
Lemma init_api_credentials (email password : option string) (tokenstore base64 : string)
    (w w1 w2 w3 w4 w5 w6 w7 w8 w9 w10 w11 : W) (garmin garmin' : client) (x : pyexn)
    (token_base64 dir_path : string) (u1 u2 u3 u4 u5 u6 : unit) :
  env (NewGarmin None) w = (Value garmin, w1) →
  env (GarminLogin garmin (Some tokenstore)) w1 = (Raised x, w2) →
  token_classes x = true →
  env (PrintLine (tokens_missing_text tokenstore)) w2 = (Value u1, w3) →
  truthy email = true → truthy password = true →
  env (NewGarmin (Some (default "" email, default "" password))) w3
  = (Value garmin', w4) →
  env (GarminLogin garmin' None) w4 = (Value u2, w5) →
  env (GarthDump garmin' tokenstore) w5 = (Value u3, w6) →
  env (PrintLine (tokens_stored_text tokenstore)) w6 = (Value u4, w7) →
  env (GarthDumps garmin') w7 = (Value token_base64, w8) →
  env (ExpandUser base64) w8 = (Value dir_path, w9) →
  env (WriteText dir_path token_base64) w9 = (Value u5, w10) →
  env (PrintLine (tokens_encoded_text dir_path)) w10 = (Value u6, w11) →
  exec env (init_api email password tokenstore base64) w
  = {| result := Value (Some garmin'); final := w11;
       calls := [NewGarmin None; GarminLogin garmin (Some tokenstore);
                 PrintLine (tokens_missing_text tokenstore);
                 NewGarmin (Some (default "" email, default "" password));
                 GarminLogin garmin' None;
                 GarthDump garmin' tokenstore;
                 PrintLine (tokens_stored_text tokenstore);
                 GarthDumps garmin';
                 ExpandUser base64;
                 WriteText dir_path token_base64;
                 PrintLine (tokens_encoded_text dir_path)] |}.
Proof.
  intros Hnew Hlogin Hx Hprint He Hp Hnew' Hlogin' Hdump Hp2 Hdumps Hexp Hwrite Hp3.
  unfold_login.
  cbn [exec try_except pbind]. rewrite Hnew.
  cbn [exec try_except pbind]. rewrite Hlogin.
  cbn [exec try_except pbind]. rewrite Hx.
  cbn [exec try_except pbind]. rewrite Hprint.
  rewrite He, Hp. cbn [negb orb exec try_except pbind]. rewrite Hnew'.
  cbn [exec try_except pbind]. rewrite Hlogin'.
  cbn [exec try_except pbind]. rewrite Hdump.
  cbn [exec try_except pbind]. rewrite Hp2.
  cbn [exec try_except pbind]. rewrite Hdumps.
  cbn [exec try_except pbind]. rewrite Hexp.
  cbn [exec try_except pbind]. rewrite Hwrite.
  cbn [exec try_except pbind]. rewrite Hp3. reflexivity.
Qed.

End LoginFacts.

(** ** Sending the report *)

Section MailFacts.
Context {W : Type}.
Variable env : ∀ ev : io, W → answer (io_resp ev) * W.

Ltac unfold_mail :=
  unfold send_email_report, image_files, perform, mbind, Proc_mbind, mret, Proc_mret;
  cbn [attach_images]; unfold perform, mbind, Proc_mbind, mret, Proc_mret.

Ltac mail_step :=
  cbn [exec pbind];
  lazymatch goal with
  | |- context [env ?ev ?w] =>
      let a := fresh "a" in let x := fresh "x" in let w' := fresh "w" in
      destruct (env ev w) as [[a|x] w'] eqn:?
  end.

Ltac no_call :=
  let H := fresh in
  intros H; cbn [exec pbind calls result final then_call In] in H;
  repeat (destruct H as [H|H]; [discriminate H|]); destruct H.

(** A message is sent only after the report and the three images were read
    and over a connection on which TLS was started and the login made; it
    has the given subject and addresses, the three images under their
    Content-IDs and then the HTML with the references rewritten. *)
Lemma sent_message (cfg : mail_settings) (to_address fname subject0 : string) (w : W)
    (s : connection) (msg : email) :
  In (SendMessage s msg)
     (calls (exec env (send_email_report cfg to_address fname subject0) w)) →
  ∃ html d1 d2 d3 rest,
    calls (exec env (send_email_report cfg to_address fname subject0) w)
    = ([ReadText fname;
       ReadBytes "charged_vs_drained_plot.png";
       ReadBytes "stress_level.png";
       ReadBytes "sleep_statistics.png";
       SmtpConnect (smtp_server cfg) (smtp_port cfg);
       StartTls s;
       SmtpLogin s (smtp_user cfg) (smtp_password cfg);
       SendMessage s msg] ++ rest)%list
    ∧ (rest = [] ∨ rest = [SmtpQuit s])
    ∧ (env (ReadText fname) w).1 = Value html
    ∧ msg = {| subject := subject0;
               sender := from_address cfg;
               recipient := to_address;
               parts := [ImagePart "<charged_vs_drained_plot.png>" d1;
                         ImagePart "<stress_level.png>" d2;
                         ImagePart "<sleep_statistics.png>" d3;
                         HtmlPart (refer_by_cid html image_files)] |}.
Proof.
  unfold_mail.
  do 7 (mail_step; [|no_call]).
  mail_step; [mail_step|];
    (intros H; cbn [exec pbind calls result final then_call In] in H;
     repeat (destruct H as [H|H]; [try discriminate H|]); [|destruct H];
     injection H as <- <-; do 5 eexists;
     cbn [exec pbind calls result final then_call fst];
     split; [reflexivity|]; split; [auto|]; split; reflexivity).
Qed.

(** The mail server is contacted only after the report and the three
    images were read. *)
Lemma files_before_network (cfg : mail_settings) (to_address fname subject0 : string)
    (w : W) (ev : io) :
  In ev (calls (exec env (send_email_report cfg to_address fname subject0) w)) →
  is_smtp ev = true →
  ∃ html d1 d2 d3 w1 w2 w3 w4,
    env (ReadText fname) w = (Value html, w1)
    ∧ env (ReadBytes "charged_vs_drained_plot.png") w1 = (Value d1, w2)
    ∧ env (ReadBytes "stress_level.png") w2 = (Value d2, w3)
    ∧ env (ReadBytes "sleep_statistics.png") w3 = (Value d3, w4).
Proof.
  unfold_mail.
  do 4 (mail_step;
        [|intros H Hs; cbn [exec pbind calls result final then_call In] in H;
          repeat (destruct H as [H|H]; [subst ev; discriminate Hs|]); destruct H]).
  intros _ _. do 8 eexists.
  split; [reflexivity|]. split; [eassumption|]. split; eassumption.
Qed.

(** A run that raises has not closed a connection: if it got to the quit,
    it is the quit that raised. *)
Lemma raised_without_quit (cfg : mail_settings) (to_address fname subject0 : string)
    (w : W) (x : pyexn) (s : connection) :
  result (exec env (send_email_report cfg to_address fname subject0) w) = Raised x →
  In (SmtpQuit s) (calls (exec env (send_email_report cfg to_address fname subject0) w)) →
  ∃ w1 w2, env (SmtpQuit s) w1 = (Raised x, w2).
Proof.
  unfold_mail.
  do 8 (mail_step; [|intros _; no_call]).
  mail_step.
  - cbn [exec pbind result then_call]. discriminate.
  - cbn [exec pbind result calls then_call In]. intros [= <-] H.
    repeat (destruct H as [H|H]; [try discriminate H|]); [|destruct H].
    injection H as <-. eauto.
Qed.

(** When sending raises, the run ends with that exception and the quit is
    never made. *)
Lemma send_raises (cfg : mail_settings) (to_address fname subject0 : string)
    (w : W) (x : pyexn) :
  (∀ s msg w1, ∃ w2, env (SendMessage s msg) w1 = (Raised x, w2)) →
  (∃ y, result (exec env (send_email_report cfg to_address fname subject0) w) = Raised y)
  ∧ (∀ s, ¬ In (SmtpQuit s)
              (calls (exec env (send_email_report cfg to_address fname subject0) w)))
  ∧ (∀ s msg,
       In (SendMessage s msg)
          (calls (exec env (send_email_report cfg to_address fname subject0) w)) →
       result (exec env (send_email_report cfg to_address fname subject0) w) = Raised x).
Proof.
  intros Hsend. unfold_mail.
  do 7 (mail_step;
        [|split; [eexists; reflexivity|split; [intros ?; no_call|intros ? ?; no_call]]]).
  cbn [exec pbind].
  match goal with
  | |- context [env (SendMessage ?s ?msg) ?w1] =>
      let v := fresh "v" in let Hv := fresh "Hv" in
      destruct (Hsend s msg w1) as [v Hv]; rewrite Hv
  end.
  split; [eexists; reflexivity|]. split; [intros ?; no_call|].
  intros ? ? _. reflexivity.
Qed.

End MailFacts.

(** X16: [init_api] never returns None.  Whatever the environment does,
    the function returns a client or raises: the handler that ends in
    [return None] first evaluates [logger], which is bound nowhere. *)
Theorem init_api_never_none (W : Type) (env : ∀ ev : io, W → answer (io_resp ev) * W)
    (w : W) (email password : option string) (tokenstore tokenstore_base64 : string) :
  result (exec env (init_api email password tokenstore tokenstore_base64) w) ≠ Value None.
Proof. apply init_api_not_none. Qed.

(** X17: with stored tokens that log in, [init_api] makes two calls, the
    client and its login from the token store, and returns that client;
    nothing is printed, no credentials are used and no file is written. *)
Theorem init_api_uses_stored_tokens (W : Type)
    (env : ∀ ev : io, W → answer (io_resp ev) * W) (w w1 w2 : W)
    (email password : option string) (tokenstore tokenstore_base64 : string)
    (garmin : client) (u : unit) :
  env (NewGarmin None) w = (Value garmin, w1) →
  env (GarminLogin garmin (Some tokenstore)) w1 = (Value u, w2) →
  exec env (init_api email password tokenstore tokenstore_base64) w
  = {| result := Value (Some garmin); final := w2;
       calls := [NewGarmin None; GarminLogin garmin (Some tokenstore)] |}.
Proof. apply init_api_tokens. Qed.

Lemma init_api_uses_stored_tokens_witness :
  exec Desk.all_fine (init_api None None "~/.garminconnect" "~/.garminconnect_base64") 0
  = {| result := Value (Some 0%nat); final := 2;
       calls := [NewGarmin None; GarminLogin 0%nat (Some "~/.garminconnect")] |}.
Proof.
  apply (init_api_uses_stored_tokens nat Desk.all_fine 0%nat 1%nat 2%nat None None
           "~/.garminconnect" "~/.garminconnect_base64" 0%nat tt); reflexivity.
Defined.

(** X18: an exception of the token login that is not FileNotFoundError,
    GarthHTTPError or GarminConnectAuthenticationError (a connection error,
    too many requests) is not handled: [init_api] raises it after the two
    calls, without trying the credentials. *)
Theorem init_api_lets_other_errors_through (W : Type)
    (env : ∀ ev : io, W → answer (io_resp ev) * W) (w w1 w2 : W)
    (email password : option string) (tokenstore tokenstore_base64 : string)
    (garmin : client) (x : pyexn) :
  env (NewGarmin None) w = (Value garmin, w1) →
  env (GarminLogin garmin (Some tokenstore)) w1 = (Raised x, w2) →
  token_classes x = false →
  exec env (init_api email password tokenstore tokenstore_base64) w
  = {| result := Raised x; final := w2;
       calls := [NewGarmin None; GarminLogin garmin (Some tokenstore)] |}.
Proof. apply init_api_uncaught. Qed.

Lemma init_api_lets_other_errors_through_witness :
  exec Desk.rate_limited
    (init_api (Some "me@example.org") (Some "secret") "~/.garminconnect"
       "~/.garminconnect_base64") 0
  = {| result := Raised GarminConnectTooManyRequestsError; final := 2;
       calls := [NewGarmin None; GarminLogin 0%nat (Some "~/.garminconnect")] |}.
Proof.
  apply (init_api_lets_other_errors_through nat Desk.rate_limited 0%nat 1%nat 2%nat);
    reflexivity.
Defined.

(** X19: without usable tokens and with the e-mail address or the password
    unset or empty, [init_api] prints its notice and then raises NameError
    for [get_credentials], which the script does not define: no credential
    is asked for and no login is tried. *)
Theorem init_api_cannot_ask_credentials (W : Type)
    (env : ∀ ev : io, W → answer (io_resp ev) * W) (w w1 w2 w3 : W)
    (email password : option string) (tokenstore tokenstore_base64 : string)
    (garmin : client) (x : pyexn) (u : unit) :
  env (NewGarmin None) w = (Value garmin, w1) →
  env (GarminLogin garmin (Some tokenstore)) w1 = (Raised x, w2) →
  token_classes x = true →
  env (PrintLine (tokens_missing_text tokenstore)) w2 = (Value u, w3) →
  truthy email = false ∨ truthy password = false →
  exec env (init_api email password tokenstore tokenstore_base64) w
  = {| result := Raised (NameError "get_credentials"); final := w3;
       calls := [NewGarmin None; GarminLogin garmin (Some tokenstore);
                 PrintLine (tokens_missing_text tokenstore)] |}.
Proof. apply init_api_no_credentials. Qed.

Lemma init_api_cannot_ask_credentials_witness :
  exec Desk.no_tokens
    (init_api (Some "me@example.org") (Some "") "~/.garminconnect"
       "~/.garminconnect_base64") 0
  = {| result := Raised (NameError "get_credentials"); final := 3;
       calls := [NewGarmin None; GarminLogin 0%nat (Some "~/.garminconnect");
                 PrintLine (tokens_missing_text "~/.garminconnect")] |}.
Proof.
  apply (init_api_cannot_ask_credentials nat Desk.no_tokens 0%nat 1%nat 2%nat 3%nat
           (Some "me@example.org") (Some "") "~/.garminconnect" "~/.garminconnect_base64"
           0%nat FileNotFoundError tt); try reflexivity.
  right. reflexivity.
Defined.

(** X20: credentials that the service refuses (or any exception of the
    four classes the second handler names, raised by the credential login)
    do not surface: the handler raises NameError for [logger], which the
    script does not define, and that is what [init_api] raises. *)
Theorem init_api_hides_refusal (W : Type)
    (env : ∀ ev : io, W → answer (io_resp ev) * W) (w w1 w2 w3 w4 w5 : W)
    (email password : option string) (tokenstore tokenstore_base64 : string)
    (garmin garmin' : client) (x x' : pyexn) (u : unit) :
  env (NewGarmin None) w = (Value garmin, w1) →
  env (GarminLogin garmin (Some tokenstore)) w1 = (Raised x, w2) →
  token_classes x = true →
  env (PrintLine (tokens_missing_text tokenstore)) w2 = (Value u, w3) →
  truthy email = true → truthy password = true →
  env (NewGarmin (Some (default "" email, default "" password))) w3
  = (Value garmin', w4) →
  env (GarminLogin garmin' None) w4 = (Raised x', w5) →
  credential_classes x' = true →
  exec env (init_api email password tokenstore tokenstore_base64) w
  = {| result := Raised (NameError "logger"); final := w5;
       calls := [NewGarmin None; GarminLogin garmin (Some tokenstore);
                 PrintLine (tokens_missing_text tokenstore);
                 NewGarmin (Some (default "" email, default "" password));
                 GarminLogin garmin' None] |}.
Proof. apply init_api_refused. Qed.

Lemma init_api_hides_refusal_witness :
  result (exec Desk.refused
            (init_api (Some "me@example.org") (Some "wrong") "~/.garminconnect"
               "~/.garminconnect_base64") 0)
  = Raised (NameError "logger").
Proof.
  rewrite (init_api_hides_refusal nat Desk.refused 0%nat 1%nat 2%nat 3%nat 4%nat 5%nat
             (Some "me@example.org") (Some "wrong") "~/.garminconnect"
             "~/.garminconnect_base64" 0%nat 3%nat FileNotFoundError
             GarminConnectAuthenticationError tt); reflexivity.
Defined.

(** X21: without usable tokens and with both credentials set, a login that
    succeeds stores the tokens twice: dumped to the token store, and the
    string of [garth.dumps] written to the expanded base64 path; the client
    returned is the one that logged in with the credentials. *)
Theorem init_api_stores_tokens (W : Type)
    (env : ∀ ev : io, W → answer (io_resp ev) * W)
    (w w1 w2 w3 w4 w5 w6 w7 w8 w9 w10 w11 : W)
    (email password : option string) (tokenstore tokenstore_base64 : string)
    (garmin garmin' : client) (x : pyexn) (token_base64 dir_path : string)
    (u1 u2 u3 u4 u5 u6 : unit) :
  env (NewGarmin None) w = (Value garmin, w1) →
  env (GarminLogin garmin (Some tokenstore)) w1 = (Raised x, w2) →
  token_classes x = true →
  env (PrintLine (tokens_missing_text tokenstore)) w2 = (Value u1, w3) →
  truthy email = true → truthy password = true →
  env (NewGarmin (Some (default "" email, default "" password))) w3
  = (Value garmin', w4) →
  env (GarminLogin garmin' None) w4 = (Value u2, w5) →
  env (GarthDump garmin' tokenstore) w5 = (Value u3, w6) →
  env (PrintLine (tokens_stored_text tokenstore)) w6 = (Value u4, w7) →
  env (GarthDumps garmin') w7 = (Value token_base64, w8) →
  env (ExpandUser tokenstore_base64) w8 = (Value dir_path, w9) →
  env (WriteText dir_path token_base64) w9 = (Value u5, w10) →
  env (PrintLine (tokens_encoded_text dir_path)) w10 = (Value u6, w11) →
  exec env (init_api email password tokenstore tokenstore_base64) w
  = {| result := Value (Some garmin'); final := w11;
       calls := [NewGarmin None; GarminLogin garmin (Some tokenstore);
                 PrintLine (tokens_missing_text tokenstore);
                 NewGarmin (Some (default "" email, default "" password));
                 GarminLogin garmin' None;
                 GarthDump garmin' tokenstore;
                 PrintLine (tokens_stored_text tokenstore);
                 GarthDumps garmin';
                 ExpandUser tokenstore_base64;
                 WriteText dir_path token_base64;
                 PrintLine (tokens_encoded_text dir_path)] |}.
Proof. apply init_api_credentials. Qed.

Lemma init_api_stores_tokens_witness :
  result (exec Desk.no_tokens
            (init_api (Some "me@example.org") (Some "secret") "~/.garminconnect"
               "~/.garminconnect_base64") 0)
  = Value (Some 3%nat)
  ∧ In (WriteText "/home/user/.garminconnect_base64" "dG9rZW5z")
       (calls (exec Desk.no_tokens
                 (init_api (Some "me@example.org") (Some "secret") "~/.garminconnect"
                    "~/.garminconnect_base64") 0)).
Proof.
  rewrite (init_api_stores_tokens nat Desk.no_tokens
             0%nat 1%nat 2%nat 3%nat 4%nat 5%nat 6%nat 7%nat 8%nat 9%nat 10%nat 11%nat
             (Some "me@example.org") (Some "secret") "~/.garminconnect"
             "~/.garminconnect_base64" 0%nat 3%nat FileNotFoundError
             "dG9rZW5z" "/home/user/.garminconnect_base64" tt tt tt tt tt tt);
    try reflexivity.
  split; [reflexivity|]. cbn [calls]. do 9 right. left. reflexivity.
Defined.



(** X23: the mail server is contacted only after the report file and the
    three image files were read: when one of the four reads raises, the run
    ends there and no connection is opened. *)
Theorem mail_reads_before_network (W : Type)
    (env : ∀ ev : io, W → answer (io_resp ev) * W) (w : W) (cfg : mail_settings)
    (to_address report_output_filename subject0 : string) (ev : io) :
  In ev (calls (exec env (send_email_report cfg to_address report_output_filename
                            subject0) w)) →
  is_smtp ev = true →
  ∃ html d1 d2 d3 w1 w2 w3 w4,
    env (ReadText report_output_filename) w = (Value html, w1)
    ∧ env (ReadBytes "charged_vs_drained_plot.png") w1 = (Value d1, w2)
    ∧ env (ReadBytes "stress_level.png") w2 = (Value d2, w3)
    ∧ env (ReadBytes "sleep_statistics.png") w3 = (Value d3, w4).
Proof. apply files_before_network. Qed.

Lemma mail_reads_before_network_witness :
  ∃ html d1 d2 d3 w1 w2 w3 w4,
    Desk.all_fine (ReadText "energy_report.html") 0 = (Value html, w1)
    ∧ Desk.all_fine (ReadBytes "charged_vs_drained_plot.png") w1 = (Value d1, w2)
    ∧ Desk.all_fine (ReadBytes "stress_level.png") w2 = (Value d2, w3)
    ∧ Desk.all_fine (ReadBytes "sleep_statistics.png") w3 = (Value d3, w4).
Proof.
  apply (mail_reads_before_network nat Desk.all_fine 0%nat Desk.settings "me@example.org"
           "energy_report.html" "Energy Report" (SmtpConnect "smtp.example.org" 587)).
  - vm_compute. do 4 right. left. reflexivity.
  - reflexivity.
Defined.

(** A missing image: the run raises after two reads. *)
Example mail_missing_image :
  exec Desk.no_image
    (send_email_report Desk.settings "me@example.org" "energy_report.html"
       "Energy Report") 0
  = {| result := Raised FileNotFoundError; final := 2;
       calls := [ReadText "energy_report.html";
                 ReadBytes "charged_vs_drained_plot.png"] |}.
Proof. vm_compute. reflexivity. Qed.

(** X24: when sending raises, the function raises and never makes the
    quit: the connection it opened is left open; a run that got to the
    sending raises the exception of the sending. *)
Theorem mail_failure_skips_quit (W : Type)
    (env : ∀ ev : io, W → answer (io_resp ev) * W) (w : W) (cfg : mail_settings)
    (to_address report_output_filename subject0 : string) (x : pyexn) :
  (∀ s msg w1, ∃ w2, env (SendMessage s msg) w1 = (Raised x, w2)) →
  (∃ y, result (exec env (send_email_report cfg to_address report_output_filename
                            subject0) w) = Raised y)
  ∧ (∀ s, ¬ In (SmtpQuit s)
              (calls (exec env (send_email_report cfg to_address report_output_filename
                                  subject0) w)))
  ∧ (∀ s msg,
       In (SendMessage s msg)
          (calls (exec env (send_email_report cfg to_address report_output_filename
                              subject0) w)) →
       result (exec env (send_email_report cfg to_address report_output_filename
                           subject0) w) = Raised x).
Proof. apply send_raises. Qed.

Lemma mail_failure_skips_quit_witness :
  result (exec Desk.send_refused
            (send_email_report Desk.settings "me@example.org" "energy_report.html"
               "Energy Report") 0)
  = Raised (OtherError "SMTPRecipientsRefused")
  ∧ ∀ s, ¬ In (SmtpQuit s)
             (calls (exec Desk.send_refused
                       (send_email_report Desk.settings "me@example.org"
                          "energy_report.html" "Energy Report") 0)).
Proof.
  destruct (mail_failure_skips_quit nat Desk.send_refused 0%nat Desk.settings
              "me@example.org" "energy_report.html" "Energy Report"
              (OtherError "SMTPRecipientsRefused")) as (_ & Hq & _).
  - intros s msg w1. exists (S w1). reflexivity.
  - split; [vm_compute; reflexivity|exact Hq].
Defined.

(** X25: the report and the mail agree on the charts.  The files a report
    saves and the names its context gives the template are the files the
    mail attaches, in the same order, and the Content-ID of each attached
    image is its file name in angle brackets, which the reference
    [cid:] followed by the name resolves to. *)
Theorem charts_agree :
  (∀ (W : Type) (handle : ∀ ev, W → outcome (resp ev) * W) w data fname tpl ctx,
     In (RenderTemplate tpl ctx) (trace (run handle (generate_html_report data fname) w)) →
     saved_files (trace (run handle (generate_html_report data fname) w)) = image_files
     ∧ [Template.graph_output_filename ctx; Template.stress_graph_output_filename ctx;
        Template.sleep_graph_output_filename ctx] = image_files)
  ∧ (∀ (W : Type) (env : ∀ ev : io, W → answer (io_resp ev) * W) w cfg to_address fname
       subject0 s msg,
       In (SendMessage s msg)
          (calls (exec env (send_email_report cfg to_address fname subject0) w)) →
       content_ids msg = map (λ f, "<" +:+ f +:+ ">") image_files
       ∧ ∃ html, last (parts msg) = Some (HtmlPart (refer_by_cid html image_files))).
Proof.
  split.
  - intros W handle w data fname tpl ctx Hin.
    destruct (report_run handle data fname w tpl ctx Hin)
      as (raw & max_day & msgs & w1 & w2 & _ & _ & Hfiles & _ & ->).
    split; [exact Hfiles|reflexivity].
  - intros W env w cfg to_address fname subject0 s msg Hin.
    destruct (sent_message env cfg to_address fname subject0 w s msg Hin)
      as (html & d1 & d2 & d3 & rest & _ & _ & _ & ->).
    split; [reflexivity|]. exists html. reflexivity.
Qed.

(** ** Summaries of windows put together *)

Lemma sum_app (xs ys : list Z) : Py.sum (xs ++ ys) = (Py.sum xs + Py.sum ys)%Z.
Proof.
  unfold Py.sum. rewrite fold_left_app, (sum_from ys). reflexivity.
Qed.

(** X26: the summary of two windows in a row is made of their summaries:
    the totals and the net energy add up, and the negative and the positive
    days are those of the first window followed by those of the second. *)
Theorem summary_of_joined_windows (first second : list DailyRecord) :
  total_charged (first ++ second) = (total_charged first + total_charged second)%Z
  ∧ total_drained (first ++ second) = (total_drained first + total_drained second)%Z
  ∧ net_energy_level (first ++ second)
    = (net_energy_level first + net_energy_level second)%Z
  ∧ negative_days (first ++ second) = (negative_days first ++ negative_days second)%list
  ∧ positive_days (first ++ second) = (positive_days first ++ positive_days second)%list.
Proof.
  assert (Hc : total_charged (first ++ second)
               = (total_charged first + total_charged second)%Z)
    by (unfold total_charged; rewrite map_app; apply sum_app).
  assert (Hd : total_drained (first ++ second)
               = (total_drained first + total_drained second)%Z)
    by (unfold total_drained; rewrite map_app; apply sum_app).
  split; [exact Hc|]. split; [exact Hd|].
  split; [unfold net_energy_level; rewrite Hc, Hd; lia|].
  split; [apply filter_app|apply filter_app].
Qed.
